(** * Pelion webhook to Elasticsearch: a shallow embedding of
      [src/index.js] and [src/elasticsearch.js]

    The two JavaScript modules are embedded as Rocq functions:

    - JavaScript strings are sequences of UTF-16 code units ([jsstring]);
    - JavaScript values that can come out of [JSON.parse], together with
      [undefined], form the type [value]; objects keep their properties in
      enumeration order;
    - the effects of an invocation (reading the clock, the outbound request,
      the invocation of the Lambda callback, an uncaught exception) are
      threaded through a small state-and-exception monad [M];
    - the runtime and the AWS SDK (the clock, [JSON.parse], request signing,
      the network) are parameters collected in the record [Env];
    - the calls of [console.log] and [console.info] have no effect on what
      is sent or answered and are left out. *)

From Stdlib Require Import ZArith String Ascii Bool List Lia.
Import ListNotations.
Open Scope Z_scope.

Set Implicit Arguments.

(* ================================================================== *)
(** * JavaScript strings *)
(* ================================================================== *)

(** A JavaScript string is a sequence of 16-bit code units. *)
Definition jsstring := list Z.

(** String literals of the source are written with Rocq string literals.
    The source's double quote character (code unit 34) is written as an
    apostrophe inside such a literal: [lit "{'a':1}"] is the JavaScript
    string of seven code units [{ " a " : 1 }].  No literal of the source
    contains an apostrophe. *)
Definition code_unit (a : ascii) : Z :=
  if Ascii.eqb a "'"%char then 34 else Z.of_nat (nat_of_ascii a).

Fixpoint lit (s : string) : jsstring :=
  match s with
  | EmptyString => []
  | String a r => code_unit a :: lit r
  end.

(** The line feed, ['\n'] in the source. *)
Definition LF : Z := 10.

Fixpoint str_eqb (a b : jsstring) : bool :=
  match a, b with
  | [], [] => true
  | x :: a', y :: b' => (x =? y) && str_eqb a' b'
  | _, _ => false
  end.

(** [String.prototype.trim]: strips the code units of WhiteSpace and
    LineTerminator from both ends. *)
Definition is_white_space (c : Z) : bool :=
  (c =? 9) || (c =? 10) || (c =? 11) || (c =? 12) || (c =? 13) || (c =? 32)
  || (c =? 160) || (c =? 5760) || ((8192 <=? c) && (c <=? 8202))
  || (c =? 8232) || (c =? 8233) || (c =? 8239) || (c =? 8287)
  || (c =? 12288) || (c =? 65279).

Fixpoint trim_start (s : jsstring) : jsstring :=
  match s with
  | [] => []
  | c :: r => if is_white_space c then trim_start r else s
  end.

Definition trim (s : jsstring) : jsstring :=
  rev (trim_start (rev (trim_start s))).

(** Joining with a separator, as [Array.prototype.join] and the member
    lists of [JSON.stringify] do. *)
Fixpoint join (sep : jsstring) (parts : list jsstring) : jsstring :=
  match parts with
  | [] => []
  | [p] => p
  | p :: rest => p ++ sep ++ join sep rest
  end.

(** ** Numbers

    The numbers the program itself makes are integers: [Date.now()] and
    the constants [1] and [0].  An integer of absolute value at most
    2^53 - 1 (a safe integer) is modelled as that integer; JavaScript
    prints it as its decimal numeral.  [Number_toString] is that numeral.
    Every other finite number is modelled by the decimal that
    Number::toString defines for it, see [Decimal_toString] below. *)
Fixpoint uint_digits (d : Decimal.uint) : jsstring :=
  match d with
  | Decimal.Nil => []
  | Decimal.D0 r => 48 :: uint_digits r
  | Decimal.D1 r => 49 :: uint_digits r
  | Decimal.D2 r => 50 :: uint_digits r
  | Decimal.D3 r => 51 :: uint_digits r
  | Decimal.D4 r => 52 :: uint_digits r
  | Decimal.D5 r => 53 :: uint_digits r
  | Decimal.D6 r => 54 :: uint_digits r
  | Decimal.D7 r => 55 :: uint_digits r
  | Decimal.D8 r => 56 :: uint_digits r
  | Decimal.D9 r => 57 :: uint_digits r
  end.

Definition Number_toString (n : Z) : jsstring :=
  match Z.to_int n with
  | Decimal.Pos d => uint_digits d
  | Decimal.Neg d => 45 :: uint_digits d
  end.

Definition safe_integer (n : Z) : bool := Z.abs n <=? 9007199254740991.

(** Number::toString for a finite number other than a safe integer.  The
    number is given the way the ECMAScript specification reads it: the
    integer [s] of [k] decimal digits, as few as denote the number, and the
    integer [n] with number = s * 10^(n - k); [digits] are the digits of
    [s] and [point] is [n].  For [-6 < n <= 21] the numeral is written
    out, with zeros appended, a point inside, or [0.] and zeros in front;
    otherwise it is written with an exponent. *)
Definition Decimal_toString (negative : bool) (digits : Decimal.uint)
    (point : Z) : jsstring :=
  let s := uint_digits digits in
  let k := Z.of_nat (length s) in
  (if negative then [45] else [])
  ++ (if (-5 <=? point) && (point <=? 21) then
        if k <=? point then s ++ repeat 48 (Z.to_nat (point - k))
        else if 0 <? point
             then firstn (Z.to_nat point) s ++ 46 :: skipn (Z.to_nat point) s
        else 48 :: 46 :: repeat 48 (Z.to_nat (- point)) ++ s
      else
        let e := point - 1 in
        let exponent :=
          101 :: (if 0 <=? e then 43 else 45) :: Number_toString (Z.abs e) in
        match s with
        | [] => exponent
        | [d] => d :: exponent
        | d :: rest => d :: 46 :: rest ++ exponent
        end).

(* ================================================================== *)
(** * JavaScript values *)
(* ================================================================== *)

(** The values [JSON.parse] produces, and [undefined].  A number is
    [VNum n] when it is the safe integer [n], and [VDec negative digits
    point] otherwise.  An object is the list of its own enumerable
    properties in enumeration order; the objects the program builds have no
    integer-like keys, so that order is the order in which the literal
    lists them.  A property list with a repeated key stands for the object
    of the first occurrences. *)
Unset Elimination Schemes.
Inductive value : Type :=
| VUndefined
| VNull
| VBool (b : bool)
| VNum (n : Z)
| VDec (negative : bool) (digits : Decimal.uint) (point : Z)
| VStr (s : jsstring)
| VArr (elems : list value)
| VObj (props : list (jsstring * value)).
Set Elimination Schemes.

(** Induction over values, with the hypothesis for every element of an
    array and for every property value of an object. *)
Fixpoint value_ind (P : value -> Prop)
    (Hundef : P VUndefined) (Hnull : P VNull)
    (Hbool : forall b, P (VBool b)) (Hnum : forall n, P (VNum n))
    (Hdec : forall negative digits point, P (VDec negative digits point))
    (Hstr : forall s, P (VStr s))
    (Harr : forall l, Forall P l -> P (VArr l))
    (Hobj : forall ps, Forall (fun kv => P (snd kv)) ps -> P (VObj ps))
    (v : value) {struct v} : P v :=
  let rec := value_ind Hundef Hnull Hbool Hnum Hdec Hstr Harr Hobj in
  match v with
  | VUndefined => Hundef
  | VNull => Hnull
  | VBool b => Hbool b
  | VNum n => Hnum n
  | VDec negative digits point => Hdec negative digits point
  | VStr s => Hstr s
  | VArr l =>
      Harr l ((fix go (l : list value) : Forall P l :=
                 match l with
                 | [] => Forall_nil P
                 | x :: r => Forall_cons x (rec x) (go r)
                 end) l)
  | VObj ps =>
      Hobj ps ((fix go (ps : list (jsstring * value))
                  : Forall (fun kv => P (snd kv)) ps :=
                  match ps with
                  | [] => Forall_nil _
                  | kv :: r =>
                      @Forall_cons _ (fun kv => P (snd kv)) kv r
                        (rec (snd kv)) (go r)
                  end) ps)
  end.

(** The digits of a [VDec] are the digits Number::toString prints: at
    least one and at most seventeen, the first and the last not [0]. *)
Definition shortest_digits (digits : Decimal.uint) : bool :=
  let s := uint_digits digits in
  negb (hd 48 s =? 48) && negb (last s 48 =? 48)
  && (Z.of_nat (length s) <=? 17).

(** The values in which every [VNum] is a safe integer and every [VDec]
    has such digits: the values that stand for a JavaScript value. *)
Fixpoint plain (v : value) : bool :=
  match v with
  | VNum n => safe_integer n
  | VDec _ digits _ => shortest_digits digits
  | VArr l => forallb plain l
  | VObj ps => forallb (fun kv => plain (snd kv)) ps
  | _ => true
  end.

(** Own-property lookup in an object's property list. *)
Fixpoint lookup (k : jsstring) (ps : list (jsstring * value)) : option value :=
  match ps with
  | [] => None
  | (k', v) :: r => if str_eqb k k' then Some v else lookup k r
  end.

(* ================================================================== *)
(** * JSON.stringify *)
(* ================================================================== *)

Definition hex_digit (d : Z) : Z := if d <? 10 then 48 + d else 87 + d.

(** UnicodeEscape: a backslash, [u] and four lower-case hexadecimal digits. *)
Definition UnicodeEscape (c : Z) : jsstring :=
  [92; 117; hex_digit ((c / 4096) mod 16); hex_digit ((c / 256) mod 16);
   hex_digit ((c / 16) mod 16); hex_digit (c mod 16)].

Definition is_high_surrogate (c : Z) : bool := (55296 <=? c) && (c <=? 56319).
Definition is_low_surrogate (c : Z) : bool := (56320 <=? c) && (c <=? 57343).

(** The escape of one code unit that is not half of a surrogate pair. *)
Definition quote_unit (c : Z) : jsstring :=
  if c =? 8 then [92; 98]
  else if c =? 9 then [92; 116]
  else if c =? 10 then [92; 110]
  else if c =? 12 then [92; 102]
  else if c =? 13 then [92; 114]
  else if c =? 34 then [92; 34]
  else if c =? 92 then [92; 92]
  else if (c <? 32) || is_high_surrogate c || is_low_surrogate c
       then UnicodeEscape c
  else [c].

(** The body of QuoteJSONString (ECMAScript 2019): the string is read by
    code points, a surrogate pair is copied, a lone surrogate is escaped.
    No case emits a line feed: code unit 10 becomes a backslash and [n]. *)
Fixpoint quote_units (s : jsstring) : jsstring :=
  match s with
  | [] => []
  | c :: r =>
      match r with
      | d :: r' =>
          if is_high_surrogate c && is_low_surrogate d
          then c :: d :: quote_units r'
          else quote_unit c ++ quote_units r
      | [] => quote_unit c
      end
  end.

Definition QuoteJSONString (s : jsstring) : jsstring :=
  34 :: quote_units s ++ [34].

(** SerializeJSONProperty without replacer and indentation: [None] is the
    result [undefined].  A property whose value serializes to [undefined]
    is left out of an object; in an array it is written [null]. *)
Fixpoint SerializeJSONProperty (v : value) : option jsstring :=
  match v with
  | VUndefined => None
  | VNull => Some (lit "null")
  | VBool true => Some (lit "true")
  | VBool false => Some (lit "false")
  | VNum n => Some (Number_toString n)
  | VDec negative digits point => Some (Decimal_toString negative digits point)
  | VStr s => Some (QuoteJSONString s)
  | VArr l =>
      Some (lit "[" ++
            join (lit ",")
              (map (fun e => match SerializeJSONProperty e with
                             | Some s => s
                             | None => lit "null"
                             end) l)
            ++ lit "]")
  | VObj ps =>
      Some (lit "{" ++
            join (lit ",")
              ((fix members (ps : list (jsstring * value)) : list jsstring :=
                  match ps with
                  | [] => []
                  | (k, x) :: r =>
                      match SerializeJSONProperty x with
                      | Some s => (QuoteJSONString k ++ lit ":" ++ s) :: members r
                      | None => members r
                      end
                  end) ps)
            ++ lit "}")
  end.

Definition JSON_stringify (v : value) : option jsstring :=
  SerializeJSONProperty v.

(** The member list of an object, named for the proofs. *)
Fixpoint members (ps : list (jsstring * value)) : list jsstring :=
  match ps with
  | [] => []
  | (k, x) :: r =>
      match SerializeJSONProperty x with
      | Some s => (QuoteJSONString k ++ lit ":" ++ s) :: members r
      | None => members r
      end
  end.

(* ================================================================== *)
(** * Exceptions, ToString, property access *)
(* ================================================================== *)

Inductive exn : Type :=
| TypeError (what : string)
| SyntaxError (what : string).

Inductive result (A : Type) : Type :=
| Ok (a : A)
| Throw (e : exn).
Arguments Ok {A} a.
Arguments Throw {A} e.

(** ToString of a value, as a template literal and [JSON.parse] apply it
    to their argument.  An array is joined with commas, [null] and
    [undefined] elements giving the empty string.  A plain object gives
    [[object Object]]; when the object has an own [toString] property (a
    parsed value, so not callable) OrdinaryToPrimitive finds no
    primitive and throws. *)
Fixpoint ToString (v : value) : result jsstring :=
  match v with
  | VUndefined => Ok (lit "undefined")
  | VNull => Ok (lit "null")
  | VBool true => Ok (lit "true")
  | VBool false => Ok (lit "false")
  | VNum n => Ok (Number_toString n)
  | VDec negative digits point => Ok (Decimal_toString negative digits point)
  | VStr s => Ok s
  | VArr l =>
      (fix elements (l : list value) (first : bool) (acc : jsstring)
         : result jsstring :=
         match l with
         | [] => Ok acc
         | e :: r =>
             let sep := if first then [] else lit "," in
             match e with
             | VUndefined | VNull => elements r false (acc ++ sep)
             | _ => match ToString e with
                    | Ok s => elements r false (acc ++ sep ++ s)
                    | Throw x => Throw x
                    end
             end
         end) l true []
  | VObj ps =>
      match lookup (lit "toString") ps with
      | Some _ => Throw (TypeError "Cannot convert object to primitive value")
      | None => Ok (lit "[object Object]")
      end
  end.

(** Property read [o.k] for the property names this program reads
    ([httpMethod], [body], [notifications], [registrations],
    [reg-updates], [registrations-expired], [ep], [path], [payload],
    [original-ep], [ept], [resources]): none of them is defined by a
    prototype, an index or [length], so the read finds an own property of
    an object or yields [undefined]; on [undefined] and [null] it throws. *)
Definition Get (o : value) (k : jsstring) : result value :=
  match o with
  | VUndefined | VNull => Throw (TypeError "Cannot read property of undefined or null")
  | VObj ps => Ok (match lookup k ps with Some v => v | None => VUndefined end)
  | _ => Ok VUndefined
  end.

(** The call [o.hasOwnProperty(k)], for the same property names.  The
    method is looked up on [o] first: on [undefined] and [null] the read
    throws, and an own property named [hasOwnProperty] shadows the
    built-in with a parsed value, which is not callable. *)
Definition hasOwnProperty (o : value) (k : jsstring) : result bool :=
  match o with
  | VUndefined | VNull => Throw (TypeError "Cannot read property of undefined or null")
  | VObj ps =>
      match lookup (lit "hasOwnProperty") ps with
      | Some _ => Throw (TypeError "hasOwnProperty is not a function")
      | None => Ok (match lookup k ps with Some _ => true | None => false end)
      end
  | _ => Ok false
  end.

(** The iteration of [for (const item of v)]: an array yields its
    elements, a string its code points, anything else is not iterable. *)
Fixpoint code_points (s : jsstring) : list jsstring :=
  match s with
  | [] => []
  | c :: r =>
      match r with
      | d :: r' =>
          if is_high_surrogate c && is_low_surrogate d
          then [c; d] :: code_points r'
          else [c] :: code_points r
      | [] => [[c]]
      end
  end.

Definition iterate (v : value) : result (list value) :=
  match v with
  | VArr l => Ok l
  | VStr s => Ok (map VStr (code_points s))
  | _ => Throw (TypeError "value is not iterable")
  end.

(* ================================================================== *)
(** * Buffer.from(s, 'base64').toString('ascii') *)
(* ================================================================== *)

(** The value of one code unit in the base64 alphabet.  Node's decoder
    reads the low byte of the code unit (code unit 321 is read as 65, the
    letter A), and accepts the URL-safe [-] and [_] as well. *)
Definition low_byte (c : Z) : Z := Z.land c 255.

Definition unbase64 (c : Z) : option Z :=
  let b := low_byte c in
  if (65 <=? b) && (b <=? 90) then Some (b - 65)
  else if (97 <=? b) && (b <=? 122) then Some (b - 71)
  else if (48 <=? b) && (b <=? 57) then Some (b + 4)
  else if (b =? 43) || (b =? 45) then Some 62
  else if (b =? 47) || (b =? 95) then Some 63
  else None.

(** Node's decoder is lenient: it reads the sextets of the code units
    whose low byte is in the alphabet, passes over any other code unit
    (white space, for one), and stops at the first whose low byte is [=]. *)
Fixpoint sextets (s : jsstring) : list Z :=
  match s with
  | [] => []
  | c :: r =>
      if low_byte c =? 61 then []
      else match unbase64 c with
           | Some x => x :: sextets r
           | None => sextets r
           end
  end.

(** Four sextets give three bytes; a final group of three gives two
    bytes, of two gives one byte, and a single sextet is dropped. *)
Fixpoint sextets_to_bytes (l : list Z) : list Z :=
  match l with
  | a :: b :: c :: d :: r =>
      Z.lor (Z.shiftl (Z.land a 63) 2) (Z.shiftr (Z.land b 48) 4)
      :: Z.lor (Z.shiftl (Z.land b 15) 4) (Z.shiftr (Z.land c 60) 2)
      :: Z.lor (Z.shiftl (Z.land c 3) 6) (Z.land d 63)
      :: sextets_to_bytes r
  | [a; b; c] =>
      [Z.lor (Z.shiftl (Z.land a 63) 2) (Z.shiftr (Z.land b 48) 4);
       Z.lor (Z.shiftl (Z.land b 15) 4) (Z.shiftr (Z.land c 60) 2)]
  | [a; b] =>
      [Z.lor (Z.shiftl (Z.land a 63) 2) (Z.shiftr (Z.land b 48) 4)]
  | _ => []
  end.

Definition base64_decode (s : jsstring) : list Z :=
  sextets_to_bytes (sextets s).

(** [buf.toString('ascii')]: every byte with its high bit cleared. *)
Definition toString_ascii (bytes : list Z) : jsstring :=
  map (fun b => Z.land b 127) bytes.

(* ================================================================== *)
(** * The world of one invocation *)
(* ================================================================== *)

(** A JavaScript [Error]: the program reads its [message] only. *)
Record Error : Type := mkError { message : jsstring }.

(** The [AWS.HttpRequest] that [sendRequest] fills in. *)
Record HttpRequest : Type := mkRequest {
  req_method : jsstring;
  req_path : jsstring;
  req_body : jsstring;
  req_headers : list (jsstring * jsstring)
}.

(** The object handed to the Lambda callback by [done]. *)
Record LambdaResponse : Type := mkResponse {
  statusCode : jsstring;
  body : option jsstring;
  headers : list (jsstring * jsstring)
}.

(** What [httpClient.handleRequest] does with a request: it calls the
    response callback, and the response emits its chunks and then [end];
    or it calls the error callback; or it does neither: the request is
    never answered, or the response never reaches its [end]. *)
Inductive net_outcome : Type :=
| Responded (status : Z) (statusMessage : jsstring) (response_headers : value)
            (chunks : list jsstring)
| Failed (err : Error)
| Unanswered.

(** The runtime and the AWS SDK, as the two modules use them. *)
Record Env : Type := mkEnv {
  (** the value of the n-th reading of the clock ([Date.now()], [new Date()]) *)
  clock : nat -> Z;
  (** [JSON.parse] of a string; [None] is a thrown SyntaxError *)
  JSON_parse : jsstring -> option value;
  (** [Buffer.from] of an array or an object (Node's array-like path) *)
  Buffer_fromObject : value -> result (list Z);
  (** [process.env.ELASTICSEARCH_DOMAIN] *)
  ELASTICSEARCH_DOMAIN : jsstring;
  (** [new AWS.HttpRequest(endpoint, AWS_REGION)] *)
  new_HttpRequest : HttpRequest;
  (** [path.join] *)
  path_join : jsstring -> jsstring -> jsstring;
  (** the headers [AWS.Signers.V4.addAuthorization] sets on the request *)
  addAuthorization : HttpRequest -> Z -> list (jsstring * jsstring);
  (** the network *)
  handleRequest : HttpRequest -> net_outcome
}.

(** The observable state of one invocation: how often the clock was
    read, the requests handed to the HTTP client and the responses handed
    to the Lambda callback, both oldest first. *)
Record World : Type := mkWorld {
  ticks : nat;
  requests : list HttpRequest;
  callbacks : list LambdaResponse
}.

Definition initial_world : World := mkWorld 0 [] [].

(** Computations that read and change the world and may throw; the world
    reached when the exception was thrown is kept. *)
Definition M (A : Type) : Type := World -> result A * World.

Definition ret {A : Type} (a : A) : M A := fun w => (Ok a, w).

Definition throw {A : Type} (e : exn) : M A := fun w => (Throw e, w).

Definition bind {A B : Type} (c : M A) (k : A -> M B) : M B :=
  fun w =>
    match c w with
    | (Ok a, w') => k a w'
    | (Throw e, w') => (Throw e, w')
    end.

Definition lift {A : Type} (r : result A) : M A := fun w => (r, w).

Declare Scope js_scope.
Delimit Scope js_scope with js.
Notation "x <- c ;; k" := (bind c (fun x => k))
  (at level 61, c at next level, right associativity) : js_scope.
Open Scope js_scope.

(** [for (const item of items) { acc = step acc item }] *)
Fixpoint for_of {A : Type} (items : list value) (step : A -> value -> M A)
    (acc : A) : M A :=
  match items with
  | [] => ret acc
  | item :: rest => acc' <- step acc item ;; for_of rest step acc'
  end.

(** [request.headers[k] = v] *)
Fixpoint set_header (k v : jsstring) (hs : list (jsstring * jsstring))
    : list (jsstring * jsstring) :=
  match hs with
  | [] => [(k, v)]
  | (k', v') :: r => if str_eqb k k' then (k, v) :: r
                     else (k', v') :: set_header k v r
  end.

(** The state of the promise [sendRequest] returns, once the event loop
    has run: resolved, rejected, or still pending. *)
Inductive settled : Type :=
| Resolved (data : value)
| Rejected (err : Error)
| Pending.

(** The type of the completion function handed to the send functions. *)
Definition completion : Type := option Error -> value -> M unit.

(* ================================================================== *)
(** * src/elasticsearch.js *)
(* ================================================================== *)

Section Program.

Variable env : Env.

(** [Date.now()] and [new Date()]: one reading of the clock. *)
Definition Date_now : M Z :=
  fun w => (Ok (clock env (ticks w)),
            mkWorld (S (ticks w)) (requests w) (callbacks w)).

(** [Buffer.from(v, 'base64')]: a string is decoded; [undefined], [null],
    a boolean and a number are rejected with a TypeError. *)
Definition Buffer_from_base64 (v : value) : result (list Z) :=
  match v with
  | VStr s => Ok (base64_decode s)
  | VArr _ | VObj _ => Buffer_fromObject env v
  | _ => Throw (TypeError "The first argument must be of type string")
  end.

(** [httpClient.handleRequest(request, null, callback, errCallback)] *)
Definition transmit (request : HttpRequest) : M net_outcome :=
  fun w => (Ok (handleRequest env request),
            mkWorld (ticks w) (requests w ++ [request]) (callbacks w)).

(** The request [sendRequest] builds and signs, lines 43-57. *)
Definition signed_request (httpMethod requestPath payload : jsstring)
    (date : Z) : HttpRequest :=
  let request := new_HttpRequest env in
  let request :=
    mkRequest httpMethod (path_join env (req_path request) requestPath) payload
      (set_header (lit "Host") (ELASTICSEARCH_DOMAIN env)
         (set_header (lit "Content-Type") (lit "application/json")
            (req_headers request))) in
  mkRequest (req_method request) (req_path request) (req_body request)
    (fold_left (fun hs kv => set_header (fst kv) (snd kv) hs)
       (addAuthorization env request date) (req_headers request)).

(** [sendRequest], lines 38-95.  The promise is resolved in the [end]
    listener, after [JSON.parse] of a non-empty body; an exception of
    [JSON.parse] there is uncaught and leaves the promise pending, and so
    does a request that is never answered. *)
Definition sendRequest (httpMethod requestPath payload : jsstring) : M settled :=
  date <- Date_now ;;
  outcome <- transmit (signed_request httpMethod requestPath payload date) ;;
  match outcome with
  | Responded status statusMessage response_headers chunks =>
      let body := fold_left (fun body chunk => body ++ chunk) chunks [] in
      let data := [(lit "statusCode", VNum status);
                   (lit "statusMessage", VStr statusMessage);
                   (lit "headers", response_headers)] in
      match body with
      | [] => ret (Resolved (VObj data))
      | _ :: _ =>
          match JSON_parse env body with
          | Some parsed => ret (Resolved (VObj (data ++ [(lit "body", parsed)])))
          | None => throw (SyntaxError "Unexpected token in JSON")
          end
      end
  | Failed err => ret (Rejected err)
  | Unanswered => ret Pending
  end.

(** [sendRequest(params).then(resolve => done(null, 'success'),
                              reject => done(reject))]: on a promise that
    stays pending neither handler runs. *)
Definition report (done : completion) (promise : settled) : M unit :=
  match promise with
  | Resolved _ => done None (VStr (lit "success"))
  | Rejected err => done (Some err) VUndefined
  | Pending => ret tt
  end.

(** [JSON.stringify(record).trim() + '\n'] *)
Definition document_line (record : value) : result jsstring :=
  match JSON_stringify record with
  | Some s => Ok (trim s ++ [LF])
  | None => Throw (TypeError "Cannot read property 'trim' of undefined")
  end.

(** The action line of the bulk protocol for one index. *)
Definition action_line (index : string) : jsstring :=
  lit "{'index':{'_index':'" ++ lit index ++ lit "','_type':'_doc'}}" ++ [LF].

(** The body of the loop of [sendNotifications], lines 110-130. *)
Definition notification_step (bulk : jsstring) (item : value) : M jsstring :=
  payload <- lift (Get item (lit "payload")) ;;
  buffer <- lift (Buffer_from_base64 payload) ;;
  let value := toString_ascii buffer in
  time <- Date_now ;;
  ep <- lift (Get item (lit "ep")) ;;
  path <- lift (Get item (lit "path")) ;;
  let record := VObj [(lit "time", VNum time);
                      (lit "endpoint", ep);
                      (lit "path", path);
                      (lit "value", VStr value)] in
  let bulk := bulk ++ action_line "notifications" in
  line <- lift (document_line record) ;;
  ret (bulk ++ line).

Definition notifications_bulk (notifications : value) : M jsstring :=
  items <- lift (iterate notifications) ;;
  for_of items notification_step [].

(** [sendNotifications], lines 105-146. *)
Definition sendNotifications (notifications : value) (done : completion)
    : M unit :=
  bulk <- notifications_bulk notifications ;;
  promise <- sendRequest (lit "POST") (lit "/_bulk") bulk ;;
  report done promise.

(** The body of the loop of [sendRegistrations], lines 156-185. *)
Definition registration_step (bulk : jsstring) (item : value) : M jsstring :=
  time <- Date_now ;;
  ep <- lift (Get item (lit "ep")) ;;
  original_ep <- lift (Get item (lit "original-ep")) ;;
  ept <- lift (Get item (lit "ept")) ;;
  resources <- lift (Get item (lit "resources")) ;;
  let record_device_info :=
    VObj [(lit "time", VNum time);
          (lit "endpoint", ep);
          (lit "original-ep", original_ep);
          (lit "ept", ept);
          (lit "resources", match JSON_stringify resources with
                            | Some s => VStr s
                            | None => VUndefined
                            end)] in
  let bulk := bulk ++ action_line "devices" in
  line <- lift (document_line record_device_info) ;;
  let bulk := bulk ++ line in
  time <- Date_now ;;
  ep <- lift (Get item (lit "ep")) ;;
  let record_device_registration :=
    VObj [(lit "time", VNum time);
          (lit "endpoint", ep);
          (lit "value", VNum 1)] in
  let bulk := bulk ++ action_line "registrations" in
  line <- lift (document_line record_device_registration) ;;
  ret (bulk ++ line).

Definition registrations_bulk (registrations : value) : M jsstring :=
  items <- lift (iterate registrations) ;;
  for_of items registration_step [].

(** [sendRegistrations], lines 151-201. *)
Definition sendRegistrations (registrations : value) (done : completion)
    : M unit :=
  bulk <- registrations_bulk registrations ;;
  promise <- sendRequest (lit "POST") (lit "/_bulk") bulk ;;
  report done promise.

(** The body of the loop of [sendExpirations], lines 214-230. *)
Definition expiration_step (bulk : jsstring) (item : value) : M jsstring :=
  time <- Date_now ;;
  let record_device_deregistration :=
    VObj [(lit "time", VNum time);
          (lit "endpoint", item);
          (lit "value", VNum 0)] in
  let bulk := bulk ++ action_line "registrations" in
  line <- lift (document_line record_device_deregistration) ;;
  ret (bulk ++ line).

Definition expirations_bulk (expirations : value) : M jsstring :=
  items <- lift (iterate expirations) ;;
  for_of items expiration_step [].

(** [sendExpirations], lines 206-246. *)
Definition sendExpirations (expirations : value) (done : completion)
    : M unit :=
  bulk <- expirations_bulk expirations ;;
  promise <- sendRequest (lit "POST") (lit "/_bulk") bulk ;;
  report done promise.

(* ================================================================== *)
(** * src/index.js *)
(* ================================================================== *)

(** [callback(null, response)] *)
Definition callback (response : LambdaResponse) : M unit :=
  fun w => (Ok tt, mkWorld (ticks w) (requests w) (callbacks w ++ [response])).

(** [done], lines 32-38. *)
Definition done : completion := fun err res =>
  callback
    (mkResponse
       (match err with Some _ => lit "400" | None => lit "200" end)
       (match err with
        | Some e => Some (message e)
        | None => JSON_stringify res
        end)
       [(lit "Content-Type", lit "application/json")]).

(** [JSON.parse(x)]: the argument is converted to a string first. *)
Definition parse (x : value) : M value :=
  text <- lift (ToString x) ;;
  match JSON_parse env text with
  | Some v => ret v
  | None => throw (SyntaxError "Unexpected token in JSON")
  end.

(** [a === 'PUT'] *)
Definition is_string (a : value) (s : jsstring) : bool :=
  match a with
  | VStr a' => str_eqb a' s
  | _ => false
  end.

(** The branch of lines 52-84 that a parsed body takes. *)
Inductive branch : Type :=
| Notifications (batch : value)
| Registrations (batch : value)
| Expirations (batch : value)
| Unknown.

Definition classify (body : value) : result branch :=
  match hasOwnProperty body (lit "notifications") with
  | Throw e => Throw e
  | Ok true =>
      match Get body (lit "notifications") with
      | Ok v => Ok (Notifications v)
      | Throw e => Throw e
      end
  | Ok false =>
      match
        match hasOwnProperty body (lit "registrations") with
        | Ok false => hasOwnProperty body (lit "reg-updates")
        | r => r
        end
      with
      | Throw e => Throw e
      | Ok true =>
          match hasOwnProperty body (lit "registrations") with
          | Throw e => Throw e
          | Ok true =>
              match Get body (lit "registrations") with
              | Ok v => Ok (Registrations v)
              | Throw e => Throw e
              end
          | Ok false =>
              match Get body (lit "reg-updates") with
              | Ok v => Ok (Registrations v)
              | Throw e => Throw e
              end
          end
      | Ok false =>
          match hasOwnProperty body (lit "registrations-expired") with
          | Throw e => Throw e
          | Ok true =>
              match Get body (lit "registrations-expired") with
              | Ok v => Ok (Expirations v)
              | Throw e => Throw e
              end
          | Ok false => Ok Unknown
          end
      end
  end.

(** The dispatch on the parsed body, lines 52-84. *)
Definition dispatch (body : value) : M unit :=
  has_notifications <- lift (hasOwnProperty body (lit "notifications")) ;;
  if has_notifications then
    batch <- lift (Get body (lit "notifications")) ;;
    sendNotifications batch done
  else
    has_registrations <- lift (hasOwnProperty body (lit "registrations")) ;;
    either <- (if has_registrations then ret true
               else lift (hasOwnProperty body (lit "reg-updates"))) ;;
    if either then
      has_registrations <- lift (hasOwnProperty body (lit "registrations")) ;;
      if has_registrations then
        batch <- lift (Get body (lit "registrations")) ;;
        sendRegistrations batch done
      else
        batch <- lift (Get body (lit "reg-updates")) ;;
        sendRegistrations batch done
    else
      has_expired <- lift (hasOwnProperty body (lit "registrations-expired")) ;;
      if has_expired then
        batch <- lift (Get body (lit "registrations-expired")) ;;
        sendExpirations batch done
      else
        done None (VStr (lit "success")).

(** What [dispatch] does once the branch is selected. *)
Definition run_branch (selected : branch) : M unit :=
  match selected with
  | Notifications batch => sendNotifications batch done
  | Registrations batch => sendRegistrations batch done
  | Expirations batch => sendExpirations batch done
  | Unknown => done None (VStr (lit "success"))
  end.

(** [exports.handler], lines 26-90. *)
Definition handler (event : value) : M unit :=
  httpMethod <- lift (Get event (lit "httpMethod")) ;;
  if is_string httpMethod (lit "PUT") then
    has_body <- lift (hasOwnProperty event (lit "body")) ;;
    if has_body then
      text <- lift (Get event (lit "body")) ;;
      body <- parse text ;;
      dispatch body
    else ret tt
  else
    httpMethod <- lift (Get event (lit "httpMethod")) ;;
    name <- lift (ToString httpMethod) ;;
    done (Some (mkError (lit "Unsupported method '" ++ name ++ lit "'")))
      VUndefined.

End Program.

(* ================================================================== *)
(** * The expected bulk payloads *)
(* ================================================================== *)

(** The complete, newline-terminated lines of a text (without their
    terminators) and the unterminated rest after the last newline. *)
Fixpoint split_lines (s : jsstring) : list jsstring * jsstring :=
  match s with
  | [] => ([], [])
  | c :: r =>
      match split_lines r with
      | (l :: ls, rest) =>
          if c =? LF then ([] :: l :: ls, rest) else ((c :: l) :: ls, rest)
      | ([], rest) =>
          if c =? LF then ([[]], rest) else ([], c :: rest)
      end
  end.

Definition no_LF (s : jsstring) : bool := forallb (fun c => negb (c =? LF)) s.

(** The text [JSON.stringify] returns, empty for [undefined]. *)
Definition stringify_text (v : value) : jsstring :=
  match JSON_stringify v with
  | Some s => s
  | None => []
  end.

(** An action line without its terminator. *)
Definition action_text (index : string) : jsstring :=
  lit "{'index':{'_index':'" ++ lit index ++ lit "','_type':'_doc'}}".

(** The value of a property read on an object. *)
Definition field (k : jsstring) (ps : list (jsstring * value)) : value :=
  match lookup k ps with
  | Some v => v
  | None => VUndefined
  end.

(** The string in a property, empty when there is none. *)
Definition text_field (k : jsstring) (ps : list (jsstring * value)) : jsstring :=
  match lookup k ps with
  | Some (VStr s) => s
  | _ => []
  end.

(** The properties whose value is not [undefined]. *)
Definition present (ps : list (jsstring * value)) : list (jsstring * value) :=
  filter (fun kv => match snd kv with VUndefined => false | _ => true end) ps.

(** The world after [n] more readings of the clock. *)
Definition tick (n : nat) (w : World) : World :=
  mkWorld (n + ticks w) (requests w) (callbacks w).

(** The world after [sendRequest]: the clock was read once more and the
    signed request was handed to the HTTP client. *)
Definition after_request (env : Env) (httpMethod requestPath payload : jsstring)
    (w : World) : World :=
  mkWorld (S (ticks w))
    (requests w ++ [signed_request env httpMethod requestPath payload
                      (clock env (ticks w))])
    (callbacks w).

(** The response [done(null, 'success')] hands to the callback. *)
Definition success_response : LambdaResponse :=
  mkResponse (lit "200") (Some (lit "'success'"))
    [(lit "Content-Type", lit "application/json")].

(** The response [done(err)] hands to the callback. *)
Definition failure_response (err : Error) : LambdaResponse :=
  mkResponse (lit "400") (Some (message err))
    [(lit "Content-Type", lit "application/json")].

Definition add_callback (r : LambdaResponse) (w : World) : World :=
  mkWorld (ticks w) (requests w) (callbacks w ++ [r]).

(** ** Notifications *)

(** The document [sendNotifications] builds for an object item at a given
    reading of the clock. *)
Definition notification_record (time : Z) (ps : list (jsstring * value)) : value :=
  VObj [(lit "time", VNum time);
        (lit "endpoint", field (lit "ep") ps);
        (lit "path", field (lit "path") ps);
        (lit "value",
          VStr (toString_ascii (base64_decode (text_field (lit "payload") ps))))].

Fixpoint notification_lines (clock : nat -> Z) (t : nat)
    (items : list (list (jsstring * value))) : list jsstring :=
  match items with
  | [] => []
  | ps :: r =>
      action_text "notifications"
      :: stringify_text (notification_record (clock t) ps)
      :: notification_lines clock (S t) r
  end.

(** A valid notification item [{ep, path, payload}], three strings. *)
Record Notification : Type := mkNotification {
  ep : jsstring;
  path : jsstring;
  payload : jsstring
}.

Definition is_notification (item : value) (n : Notification) : Prop :=
  exists ps, item = VObj ps
    /\ lookup (lit "ep") ps = Some (VStr (ep n))
    /\ lookup (lit "path") ps = Some (VStr (path n))
    /\ lookup (lit "payload") ps = Some (VStr (payload n)).

(** The document line the specification asks for: the item's [ep] and
    [path], and the base64 payload decoded as ascii text. *)
Definition notification_document (time : Z) (n : Notification) : jsstring :=
  stringify_text
    (VObj [(lit "time", VNum time);
           (lit "endpoint", VStr (ep n));
           (lit "path", VStr (path n));
           (lit "value", VStr (toString_ascii (base64_decode (payload n))))]).

Fixpoint notification_bulk (clock : nat -> Z) (t : nat)
    (ns : list Notification) : list jsstring :=
  match ns with
  | [] => []
  | n :: r =>
      action_text "notifications"
      :: notification_document (clock t) n
      :: notification_bulk clock (S t) r
  end.

(** ** Registrations *)

Definition resources_text (ps : list (jsstring * value)) : value :=
  match JSON_stringify (field (lit "resources") ps) with
  | Some s => VStr s
  | None => VUndefined
  end.

Definition device_record (time : Z) (ps : list (jsstring * value)) : value :=
  VObj [(lit "time", VNum time);
        (lit "endpoint", field (lit "ep") ps);
        (lit "original-ep", field (lit "original-ep") ps);
        (lit "ept", field (lit "ept") ps);
        (lit "resources", resources_text ps)].

Definition registration_record (time : Z) (ps : list (jsstring * value)) : value :=
  VObj [(lit "time", VNum time);
        (lit "endpoint", field (lit "ep") ps);
        (lit "value", VNum 1)].

Fixpoint registration_lines (clock : nat -> Z) (t : nat)
    (items : list (list (jsstring * value))) : list jsstring :=
  match items with
  | [] => []
  | ps :: r =>
      action_text "devices"
      :: stringify_text (device_record (clock t) ps)
      :: action_text "registrations"
      :: stringify_text (registration_record (clock (S t)) ps)
      :: registration_lines clock (S (S t)) r
  end.

(** A valid registration item [{ep, original-ep, ept, resources}]: three
    strings and a parsed value. *)
Record Registration : Type := mkRegistration {
  r_ep : jsstring;
  r_original_ep : jsstring;
  r_ept : jsstring;
  r_resources : value
}.

Definition is_registration (item : value) (r : Registration) : Prop :=
  exists ps, item = VObj ps
    /\ lookup (lit "ep") ps = Some (VStr (r_ep r))
    /\ lookup (lit "original-ep") ps = Some (VStr (r_original_ep r))
    /\ lookup (lit "ept") ps = Some (VStr (r_ept r))
    /\ lookup (lit "resources") ps = Some (r_resources r)
    /\ r_resources r <> VUndefined.

Definition device_document (time : Z) (r : Registration) : jsstring :=
  stringify_text
    (VObj [(lit "time", VNum time);
           (lit "endpoint", VStr (r_ep r));
           (lit "original-ep", VStr (r_original_ep r));
           (lit "ept", VStr (r_ept r));
           (lit "resources", VStr (stringify_text (r_resources r)))]).

Definition registration_document (time : Z) (r : Registration) : jsstring :=
  stringify_text
    (VObj [(lit "time", VNum time);
           (lit "endpoint", VStr (r_ep r));
           (lit "value", VNum 1)]).

Fixpoint registration_bulk (clock : nat -> Z) (t : nat)
    (rs : list Registration) : list jsstring :=
  match rs with
  | [] => []
  | r :: rest =>
      action_text "devices"
      :: device_document (clock t) r
      :: action_text "registrations"
      :: registration_document (clock (S t)) r
      :: registration_bulk clock (S (S t)) rest
  end.

(** ** Expirations *)

Definition expiration_record (time : Z) (item : value) : value :=
  VObj [(lit "time", VNum time);
        (lit "endpoint", item);
        (lit "value", VNum 0)].

Fixpoint expiration_lines (clock : nat -> Z) (t : nat) (items : list value)
    : list jsstring :=
  match items with
  | [] => []
  | item :: r =>
      action_text "registrations"
      :: stringify_text (expiration_record (clock t) item)
      :: expiration_lines clock (S t) r
  end.

(** The documents a valid array of expired endpoint names gives. *)
Fixpoint expiration_bulk (clock : nat -> Z) (t : nat) (names : list jsstring)
    : list jsstring :=
  match names with
  | [] => []
  | name :: r =>
      action_text "registrations"
      :: stringify_text (VObj [(lit "time", VNum (clock t));
                               (lit "endpoint", VStr name);
                               (lit "value", VNum 0)])
      :: expiration_bulk clock (S t) r
  end.

(** ** The encoding of the payload

    The device service sends the resource value in the base64 encoding of
    RFC 4648; it is written down here to state what the decoder recovers. *)
Definition base64_char (x : Z) : Z :=
  if x <? 26 then 65 + x
  else if x <? 52 then 71 + x
  else if x <? 62 then x - 4
  else if x =? 62 then 43
  else 47.

Fixpoint base64_encode (bytes : list Z) : jsstring :=
  match bytes with
  | a :: b :: c :: r =>
      base64_char (a / 4)
      :: base64_char ((a mod 4) * 16 + b / 16)
      :: base64_char ((b mod 16) * 4 + c / 64)
      :: base64_char (c mod 64)
      :: base64_encode r
  | [a; b] =>
      [base64_char (a / 4); base64_char ((a mod 4) * 16 + b / 16);
       base64_char ((b mod 16) * 4); 61]
  | [a] => [base64_char (a / 4); base64_char ((a mod 4) * 16); 61; 61]
  | [] => []
  end.

(** A property checked on every integer from 0 up to [n - 1]. *)
Definition below (n : nat) (P : Z -> bool) : bool :=
  forallb P (map Z.of_nat (seq 0 n)).

(** ** Lines and records *)

(** Lines, each followed by a line feed. *)
Fixpoint unlines (ls : list jsstring) : jsstring :=
  match ls with
  | [] => []
  | l :: r => l ++ LF :: unlines r
  end.

Definition has_string_payload (ps : list (jsstring * value)) : Prop :=
  exists p, lookup (lit "payload") ps = Some (VStr p).

(** A record without the properties whose value is [undefined]. *)
Definition without_undefined (record : value) : value :=
  match record with
  | VObj ps => VObj (present ps)
  | v => v
  end.

(** ** Branch selection *)

Inductive selection : Type :=
| SelNotifications
| SelRegistrations
| SelExpirations
| SelUnknown
| SelThrows.

Definition selection_of (r : result branch) : selection :=
  match r with
  | Ok (Notifications _) => SelNotifications
  | Ok (Registrations _) => SelRegistrations
  | Ok (Expirations _) => SelExpirations
  | Ok Unknown => SelUnknown
  | Throw _ => SelThrows
  end.

Definition has_key (k : string) (ps : list (jsstring * value)) : bool :=
  match lookup (lit k) ps with
  | Some _ => true
  | None => false
  end.

(** Two objects with the same keys among those the dispatch looks at. *)
Definition same_keys (ps1 ps2 : list (jsstring * value)) : Prop :=
  has_key "hasOwnProperty" ps1 = has_key "hasOwnProperty" ps2
  /\ has_key "notifications" ps1 = has_key "notifications" ps2
  /\ has_key "registrations" ps1 = has_key "registrations" ps2
  /\ has_key "reg-updates" ps1 = has_key "reg-updates" ps2
  /\ has_key "registrations-expired" ps1 = has_key "registrations-expired" ps2.

(** The branch as a function of which keys the body has. *)
Definition selection_by_keys (shadowed notifications registrations updates
    expired : bool) : selection :=
  if shadowed then SelThrows
  else if notifications then SelNotifications
  else if registrations || updates then SelRegistrations
  else if expired then SelExpirations
  else SelUnknown.

(** ** Sample inputs *)

(** An environment for the examples: a clock that starts at
    2019-01-01T00:00:00Z and advances one millisecond per reading, a
    [JSON.parse] that knows the texts [null] and [{}] only, and an engine
    that answers [200 OK] with an empty body. *)
Definition sample_env : Env :=
  mkEnv (fun n => 1546300800000 + Z.of_nat n)
        (fun text => if str_eqb text (lit "null") then Some VNull
                     else if str_eqb text (lit "{}") then Some (VObj [])
                     else None)
        (fun _ => Throw (TypeError "The first argument must be of type string"))
        (lit "search-demo.eu-west-1.es.amazonaws.com")
        (mkRequest (lit "POST") (lit "/") [] [])
        (fun a b => b)
        (fun _ _ => [])
        (fun _ => Responded 200 (lit "OK") (VObj []) []).

(** The same engine behind a gateway that answers [502] with an HTML page. *)
Definition bad_gateway_env : Env :=
  mkEnv (clock sample_env) (JSON_parse sample_env)
        (Buffer_fromObject sample_env) (ELASTICSEARCH_DOMAIN sample_env)
        (new_HttpRequest sample_env) (path_join sample_env)
        (addAuthorization sample_env)
        (fun _ => Responded 502 (lit "Bad Gateway") (VObj [])
                    [lit "<html><body>502 Bad Gateway</body></html>"]).

(** The notification of the specification's example. *)
Definition node1_notification : value :=
  VObj [(lit "ep", VStr (lit "node1"));
        (lit "path", VStr (lit "/3/0/1"));
        (lit "payload", VStr (lit "SGVsbG8="))].

(** A notification item without [payload], and one without [ep]. *)
Definition notification_without_payload : value :=
  VObj [(lit "ep", VStr (lit "node1")); (lit "path", VStr (lit "/3/0/1"))].

Definition notification_without_ep : list (jsstring * value) :=
  [(lit "path", VStr (lit "/3/0/1")); (lit "payload", VStr (lit "SGVsbG8="))].

Definition node1_registration : value :=
  VObj [(lit "ep", VStr (lit "node1"));
        (lit "original-ep", VStr (lit "dev-1"));
        (lit "ept", VStr (lit "sensor"));
        (lit "resources",
          VArr [VObj [(lit "path", VStr (lit "/3/0/1")); (lit "obs", VBool true)]])].

(** A registration whose resources hold a safe integer, a fraction and a
    number that is printed with an exponent. *)
Definition resourceful_registration : value :=
  VObj [(lit "ep", VStr (lit "node1"));
        (lit "original-ep", VStr (lit "dev-1"));
        (lit "ept", VStr (lit "sensor"));
        (lit "resources",
          VArr [VObj [(lit "path", VStr (lit "/3/0/1"));
                      (lit "obs", VBool true);
                      (lit "size", VNum 12);
                      (lit "gain",
                        VDec false (Decimal.D1 (Decimal.D5 Decimal.Nil)) 1);
                      (lit "top", VDec false (Decimal.D1 Decimal.Nil) 22)]])].

(** A body with all of [notifications], [registrations], [reg-updates]. *)
Definition mixed_body : value :=
  VObj [(lit "notifications", VArr [node1_notification]);
        (lit "registrations", VArr [node1_registration]);
        (lit "reg-updates", VArr [])].

Definition put_event (text : value) : value :=
  VObj [(lit "httpMethod", VStr (lit "PUT")); (lit "body", text)].

(** ** Effects and further inputs *)

(** A computation that at most reads the clock: it hands nothing to the
    HTTP client and does not call the callback. *)
Definition only_ticks (A : Type) (c : M A) : Prop :=
  forall w, requests (snd (c w)) = requests w
            /\ callbacks (snd (c w)) = callbacks w.

(** What a computation adds to the requests and to the callbacks. *)
Definition adds (A : Type) (c : M A) (w : World) (rs : list HttpRequest)
    (cs : list LambdaResponse) : Prop :=
  requests (snd (c w)) = requests w ++ rs
  /\ callbacks (snd (c w)) = callbacks w ++ cs.

(** A computation that hands at most one request to the HTTP client and
    calls the callback at most once, and not at all when it throws. *)
Definition bounded_effects (A : Type) (c : M A) (w : World) : Prop :=
  exists rs cs,
    adds c w rs cs
    /\ (length rs <= 1)%nat /\ (length cs <= 1)%nat
    /\ (forall e, fst (c w) = Throw e -> cs = []).

(** A computation that has called the callback exactly once when it
    returns. *)
Definition answers_once (A : Type) (c : M A) (w : World) : Prop :=
  forall a, fst (c w) = Ok a ->
  exists response, callbacks (snd (c w)) = callbacks w ++ [response].

(** [request.headers[k]] *)
Fixpoint get_header (k : jsstring) (hs : list (jsstring * jsstring))
    : option jsstring :=
  match hs with
  | [] => None
  | (k', v) :: r => if str_eqb k k' then Some v else get_header k r
  end.

(** The sample environment with another [JSON.parse] and another network. *)
Definition env_with (parse : jsstring -> option value)
    (net : HttpRequest -> net_outcome) : Env :=
  mkEnv (clock sample_env) parse (Buffer_fromObject sample_env)
        (ELASTICSEARCH_DOMAIN sample_env) (new_HttpRequest sample_env)
        (path_join sample_env) (addAuthorization sample_env) net.

(** The sample environment with a request that already carries a
    [Content-Type] and a signer that sets two headers. *)
Definition signing_env : Env :=
  mkEnv (clock sample_env) (JSON_parse sample_env)
        (Buffer_fromObject sample_env) (ELASTICSEARCH_DOMAIN sample_env)
        (mkRequest (lit "POST") (lit "/")  []
           [(lit "User-Agent", lit "aws-sdk-nodejs");
            (lit "Content-Type", lit "text/plain")])
        (path_join sample_env)
        (fun _ date =>
           [(lit "X-Amz-Date", Number_toString date);
            (lit "Authorization", lit "AWS4-HMAC-SHA256 Credential=...")])
        (handleRequest sample_env).

(** A refused connection. *)
Definition connection_refused : Error :=
  mkError (lit "connect ECONNREFUSED 10.0.0.1:443").

(** Text of single-byte characters, as base64 text is. *)
Definition single_byte (s : jsstring) : Prop :=
  Forall (fun c => 0 <= c < 256) s.

(** An item whose [payload] is single-byte text. *)
Definition has_single_byte_payload (ps : list (jsstring * value)) : Prop :=
  single_byte (text_field (lit "payload") ps).

(** An item in which every number is a safe integer or a decimal. *)
Definition plain_item (ps : list (jsstring * value)) : Prop :=
  plain (VObj ps) = true.

(** A code unit that starts no surrogate pair. *)
Definition no_high_surrogate (s : jsstring) : Prop :=
  Forall (fun c => is_high_surrogate c = false) s.

(* ================================================================== *)
(** * Strings: equality, lines, trimming *)
(* ================================================================== *)

Unset Implicit Arguments.

Lemma str_eqb_eq (a b : jsstring) : str_eqb a b = true <-> a = b.
Proof.
  revert b; induction a as [|x a IH]; intros [|y b]; simpl; split;
    try congruence; try reflexivity.
  - intros H. apply andb_true_iff in H as [H1 H2].
    apply Z.eqb_eq in H1. apply IH in H2. congruence.
  - intros H. injection H as -> ->. rewrite Z.eqb_refl. simpl. now apply IH.
Qed.

Lemma str_eqb_refl (a : jsstring) : str_eqb a a = true.
Proof. now apply str_eqb_eq. Qed.

Lemma no_LF_app (a b : jsstring) : no_LF (a ++ b) = no_LF a && no_LF b.
Proof. unfold no_LF. apply forallb_app. Qed.

Lemma no_LF_cons (c : Z) (s : jsstring) :
  no_LF (c :: s) = negb (c =? LF) && no_LF s.
Proof. reflexivity. Qed.

(** A line without a line feed, once terminated, is the first line. *)
Lemma split_lines_line (l r : jsstring) :
  no_LF l = true ->
  split_lines (l ++ LF :: r) = (l :: fst (split_lines r), snd (split_lines r)).
Proof.
  induction l as [|c l IH]; intros H.
  - simpl. destruct (split_lines r) as [[|x ls] rest]; reflexivity.
  - rewrite no_LF_cons in H. apply andb_true_iff in H as [Hc Hl].
    apply negb_true_iff in Hc.
    change ((c :: l) ++ LF :: r) with (c :: (l ++ LF :: r)).
    cbn [split_lines]. rewrite (IH Hl). cbn [fst snd]. now rewrite Hc.
Qed.

Lemma trim_start_keeps (c : Z) (s : jsstring) :
  is_white_space c = false -> trim_start (c :: s) = c :: s.
Proof. intros H. simpl. now rewrite H. Qed.

(** Text that neither starts nor ends with white space is its own trim. *)
Lemma trim_delimited (a b : Z) (s : jsstring) :
  is_white_space a = false -> is_white_space b = false ->
  trim (a :: s ++ [b]) = a :: s ++ [b].
Proof.
  intros Ha Hb. unfold trim. rewrite trim_start_keeps by assumption.
  assert (E : rev (a :: s ++ [b]) = b :: rev (a :: s)).
  { change (a :: s ++ [b]) with ((a :: s) ++ [b]).
    now rewrite rev_app_distr. }
  rewrite E, trim_start_keeps by assumption.
  rewrite <- E. apply rev_involutive.
Qed.

(* ================================================================== *)
(** * JSON.stringify never emits a line feed *)
(* ================================================================== *)

Lemma uint_digits_no_LF (d : Decimal.uint) : no_LF (uint_digits d) = true.
Proof. induction d; simpl; auto. Qed.

Lemma Number_toString_no_LF (n : Z) : no_LF (Number_toString n) = true.
Proof.
  unfold Number_toString. destruct (Z.to_int n); simpl;
    apply uint_digits_no_LF.
Qed.

Lemma no_LF_firstn (n : nat) (s : jsstring) :
  no_LF s = true -> no_LF (firstn n s) = true.
Proof.
  revert n; induction s as [|c r IH]; intros [|n] H; try reflexivity.
  rewrite no_LF_cons in H. apply andb_true_iff in H as [Hc Hr].
  cbn [firstn]. now rewrite no_LF_cons, Hc, IH.
Qed.

Lemma no_LF_skipn (n : nat) (s : jsstring) :
  no_LF s = true -> no_LF (skipn n s) = true.
Proof.
  revert n; induction s as [|c r IH]; intros [|n] H; try reflexivity;
    try exact H.
  rewrite no_LF_cons in H. apply andb_true_iff in H as [Hc Hr].
  cbn [skipn]. now apply IH.
Qed.

Lemma no_LF_zeros (n : nat) : no_LF (repeat 48 n) = true.
Proof. induction n as [|n IH]; [reflexivity|]. cbn [repeat]. now rewrite no_LF_cons, IH. Qed.

Lemma Decimal_toString_no_LF (negative : bool) (digits : Decimal.uint)
    (point : Z) :
  no_LF (Decimal_toString negative digits point) = true.
Proof.
  unfold Decimal_toString. cbv zeta.
  pose proof (uint_digits_no_LF digits) as Hs.
  rewrite no_LF_app. apply andb_true_iff. split; [now destruct negative|].
  destruct ((-5 <=? point) && (point <=? 21)).
  - destruct (Z.of_nat (length (uint_digits digits)) <=? point).
    + now rewrite no_LF_app, Hs, no_LF_zeros.
    + destruct (0 <? point).
      * rewrite no_LF_app, no_LF_cons, no_LF_firstn, no_LF_skipn by exact Hs.
        reflexivity.
      * now rewrite !no_LF_cons, no_LF_app, no_LF_zeros, Hs.
  - assert (He : no_LF (101 :: (if 0 <=? point - 1 then 43 else 45)
                          :: Number_toString (Z.abs (point - 1))) = true).
    { rewrite !no_LF_cons, Number_toString_no_LF.
      now destruct (0 <=? point - 1). }
    remember (101 :: (if 0 <=? point - 1 then 43 else 45)
                :: Number_toString (Z.abs (point - 1))) as exponent.
    destruct (uint_digits digits) as [|d [|d' rest]]; [exact He| |].
    + rewrite no_LF_cons in *. apply andb_true_iff in Hs as [Hd _].
      now rewrite Hd, He.
    + rewrite !no_LF_cons in Hs.
      apply andb_true_iff in Hs as [Hd Hs].
      apply andb_true_iff in Hs as [Hd' Hs].
      cbn [app]. rewrite !no_LF_cons, no_LF_app, Hd, Hd', Hs, He. reflexivity.
Qed.

Lemma hex_digit_not_LF (x : Z) : (hex_digit (x mod 16) =? LF) = false.
Proof.
  unfold hex_digit, LF. pose proof (Z.mod_pos_bound x 16 ltac:(lia)).
  destruct (x mod 16 <? 10); apply Z.eqb_neq; lia.
Qed.

Lemma UnicodeEscape_no_LF (c : Z) : no_LF (UnicodeEscape c) = true.
Proof.
  unfold UnicodeEscape, no_LF. cbn [forallb].
  rewrite !hex_digit_not_LF. reflexivity.
Qed.

Lemma quote_unit_no_LF (c : Z) : no_LF (quote_unit c) = true.
Proof.
  unfold quote_unit.
  repeat match goal with
         | |- context [if ?b then _ else _] =>
             let E := fresh "E" in destruct b eqn:E; try reflexivity
         end.
  - apply UnicodeEscape_no_LF.
  - unfold no_LF. simpl. unfold LF. now rewrite E1.
Qed.

Lemma quote_units_cons (c d : Z) (r : jsstring) :
  quote_units (c :: d :: r)
  = if is_high_surrogate c && is_low_surrogate d
    then c :: d :: quote_units r
    else quote_unit c ++ quote_units (d :: r).
Proof. reflexivity. Qed.

Lemma quote_units_no_LF_bounded (n : nat) :
  forall s, (length s <= n)%nat -> no_LF (quote_units s) = true.
Proof.
  induction n as [|n IH]; intros [|c [|d r]] Hlen;
    try reflexivity; try (simpl in Hlen; lia); try apply quote_unit_no_LF.
  rewrite quote_units_cons.
  destruct (is_high_surrogate c && is_low_surrogate d) eqn:E.
  - apply andb_true_iff in E as [Hc Hd].
    unfold is_high_surrogate in Hc. unfold is_low_surrogate in Hd.
    rewrite !no_LF_cons, IH by (simpl in *; lia).
    replace (c =? LF) with false by (symmetry; apply Z.eqb_neq; unfold LF; lia).
    replace (d =? LF) with false by (symmetry; apply Z.eqb_neq; unfold LF; lia).
    reflexivity.
  - rewrite no_LF_app, quote_unit_no_LF. apply IH. simpl in *. lia.
Qed.

Lemma QuoteJSONString_no_LF (s : jsstring) : no_LF (QuoteJSONString s) = true.
Proof.
  unfold QuoteJSONString. rewrite no_LF_cons, no_LF_app.
  rewrite (quote_units_no_LF_bounded (length s)) by lia. reflexivity.
Qed.

Lemma join_no_LF (sep : jsstring) (parts : list jsstring) :
  no_LF sep = true -> Forall (fun p => no_LF p = true) parts ->
  no_LF (join sep parts) = true.
Proof.
  intros Hsep H. induction H as [|p rest Hp Hrest IH]; [reflexivity|].
  destruct rest as [|q rest]; [exact Hp|].
  change (join sep (p :: q :: rest)) with (p ++ sep ++ join sep (q :: rest)).
  now rewrite !no_LF_app, Hp, Hsep, IH.
Qed.

Lemma stringify_obj (ps : list (jsstring * value)) :
  SerializeJSONProperty (VObj ps)
  = Some (lit "{" ++ join (lit ",") (members ps) ++ lit "}").
Proof. reflexivity. Qed.

Lemma stringify_arr (l : list value) :
  SerializeJSONProperty (VArr l)
  = Some (lit "[" ++
          join (lit ",")
            (map (fun e => match SerializeJSONProperty e with
                           | Some s => s
                           | None => lit "null"
                           end) l)
          ++ lit "]").
Proof. reflexivity. Qed.

(** No value serializes to a text with a line feed in it: the line feeds
    of strings and keys are escaped. *)
Lemma SerializeJSONProperty_no_LF (v : value) :
  forall s, SerializeJSONProperty v = Some s -> no_LF s = true.
Proof.
  induction v as [| |b|n|neg ds pt|s0|l IH|ps IH] using value_ind; intros s H.
  - discriminate.
  - injection H as <-. reflexivity.
  - destruct b; injection H as <-; reflexivity.
  - injection H as <-. apply Number_toString_no_LF.
  - injection H as <-. apply Decimal_toString_no_LF.
  - injection H as <-. apply QuoteJSONString_no_LF.
  - rewrite stringify_arr in H. injection H as <-.
    cbn [lit app]. rewrite no_LF_cons, no_LF_app, join_no_LF;
      [reflexivity | reflexivity |].
    induction IH as [|x r Hx _ IHr]; simpl; constructor; auto.
    destruct (SerializeJSONProperty x) as [t|]; [now apply Hx | reflexivity].
  - rewrite stringify_obj in H. injection H as <-.
    cbn [lit app]. rewrite no_LF_cons, no_LF_app, join_no_LF;
      [reflexivity | reflexivity |].
    induction IH as [|[k x] r Hx _ IHr]; cbn [members]; [constructor|].
    cbn [snd] in Hx. destruct (SerializeJSONProperty x) as [t|]; [|exact IHr].
    constructor; [|exact IHr].
    now rewrite !no_LF_app, QuoteJSONString_no_LF, (Hx t eq_refl).
Qed.

Lemma stringify_text_no_LF (v : value) : no_LF (stringify_text v) = true.
Proof.
  unfold stringify_text, JSON_stringify.
  destruct (SerializeJSONProperty v) eqn:E; [|reflexivity].
  now apply (SerializeJSONProperty_no_LF v).
Qed.

Lemma action_text_no_LF_notifications : no_LF (action_text "notifications") = true.
Proof. reflexivity. Qed.

Lemma action_text_no_LF_devices : no_LF (action_text "devices") = true.
Proof. reflexivity. Qed.

Lemma action_text_no_LF_registrations : no_LF (action_text "registrations") = true.
Proof. reflexivity. Qed.

(** [JSON.stringify(record).trim() + '\n'] of an object is its text and a
    line feed: the text starts and ends with a brace, so [trim] keeps it. *)
Lemma document_line_obj (ps : list (jsstring * value)) :
  document_line (VObj ps) = Ok (stringify_text (VObj ps) ++ [LF]).
Proof.
  unfold document_line, stringify_text, JSON_stringify.
  rewrite stringify_obj.
  change (lit "{" ++ join (lit ",") (members ps) ++ lit "}")
    with (123 :: join (lit ",") (members ps) ++ [125]).
  rewrite trim_delimited by reflexivity. reflexivity.
Qed.

(** A property whose value is [undefined] is left out of the text. *)
Lemma members_present (ps : list (jsstring * value)) :
  members (present ps) = members ps.
Proof.
  induction ps as [|[k x] r IH]; [reflexivity|].
  destruct x; simpl; rewrite ?IH; reflexivity.
Qed.

Lemma stringify_text_present (ps : list (jsstring * value)) :
  stringify_text (VObj (present ps)) = stringify_text (VObj ps).
Proof.
  unfold stringify_text, JSON_stringify.
  now rewrite !stringify_obj, members_present.
Qed.

(* ================================================================== *)
(** * Base64: decoding recovers the encoded bytes *)
(* ================================================================== *)

Lemma below_spec (n : nat) (P : Z -> bool) :
  below n P = true -> forall x, 0 <= x < Z.of_nat n -> P x = true.
Proof.
  unfold below. intros H x Hx. rewrite forallb_forall in H. apply H.
  apply in_map_iff. exists (Z.to_nat x). split; [lia|].
  apply in_seq. lia.
Qed.

Lemma unbase64_base64_char (x : Z) :
  0 <= x < 64 ->
  unbase64 (base64_char x) = Some x
  /\ (low_byte (base64_char x) =? 61) = false.
Proof.
  intros Hx.
  assert (H : below 64 (fun x => match unbase64 (base64_char x) with
                                 | Some y =>
                                     (y =? x)
                                     && negb (low_byte (base64_char x) =? 61)
                                 | None => false
                                 end) = true) by (vm_compute; reflexivity).
  pose proof (below_spec _ _ H x Hx) as Hc. cbv beta in Hc.
  destruct (unbase64 (base64_char x)) as [y|]; [|discriminate].
  apply andb_true_iff in Hc as [H1 H2]. apply Z.eqb_eq in H1.
  apply negb_true_iff in H2. subst. auto.
Qed.

Lemma sextet_bits (x y : Z) :
  0 <= x < 64 -> 0 <= y < 64 ->
  Z.lor (Z.shiftl (Z.land x 63) 2) (Z.shiftr (Z.land y 48) 4) = x * 4 + y / 16
  /\ Z.lor (Z.shiftl (Z.land x 15) 4) (Z.shiftr (Z.land y 60) 2) = (x mod 16) * 16 + y / 4
  /\ Z.lor (Z.shiftl (Z.land x 3) 6) (Z.land y 63) = (x mod 4) * 64 + y.
Proof.
  intros Hx Hy.
  assert (H : below 64 (fun x => below 64 (fun y =>
     (Z.lor (Z.shiftl (Z.land x 63) 2) (Z.shiftr (Z.land y 48) 4) =? x * 4 + y / 16)
     && (Z.lor (Z.shiftl (Z.land x 15) 4) (Z.shiftr (Z.land y 60) 2) =? (x mod 16) * 16 + y / 4)
     && (Z.lor (Z.shiftl (Z.land x 3) 6) (Z.land y 63) =? (x mod 4) * 64 + y))) = true)
    by (vm_compute; reflexivity).
  pose proof (below_spec _ _ (below_spec _ _ H x Hx) y Hy) as Hc. cbv beta in Hc.
  apply andb_true_iff in Hc as [Hc H3]. apply andb_true_iff in Hc as [H1 H2].
  apply Z.eqb_eq in H1, H2, H3. auto.
Qed.

Lemma sextet_range (a b : Z) :
  0 <= a < 256 -> 0 <= b < 256 ->
  0 <= a / 4 < 64 /\ 0 <= (a mod 4) * 16 + b / 16 < 64
  /\ 0 <= (a mod 16) * 4 + b / 64 < 64 /\ 0 <= a mod 64 < 64
  /\ 0 <= (a mod 4) * 16 < 64 /\ 0 <= (a mod 16) * 4 < 64.
Proof. intros Ha Hb. Z.to_euclidean_division_equations. lia. Qed.

Lemma decode_first (a b : Z) :
  0 <= a < 256 -> 0 <= b < 256 ->
  Z.lor (Z.shiftl (Z.land (a / 4) 63) 2)
        (Z.shiftr (Z.land ((a mod 4) * 16 + b / 16) 48) 4) = a.
Proof.
  intros Ha Hb. destruct (sextet_range a b Ha Hb) as (H1 & H2 & _).
  destruct (sextet_bits _ _ H1 H2) as (-> & _).
  Z.to_euclidean_division_equations. lia.
Qed.

Lemma decode_second (a b c : Z) :
  0 <= a < 256 -> 0 <= b < 256 -> 0 <= c < 256 ->
  Z.lor (Z.shiftl (Z.land ((a mod 4) * 16 + b / 16) 15) 4)
        (Z.shiftr (Z.land ((b mod 16) * 4 + c / 64) 60) 2) = b.
Proof.
  intros Ha Hb Hc. destruct (sextet_range a b Ha Hb) as (_ & H2 & _).
  destruct (sextet_range b c Hb Hc) as (_ & _ & H3 & _).
  destruct (sextet_bits _ _ H2 H3) as (_ & -> & _).
  Z.to_euclidean_division_equations. lia.
Qed.

Lemma decode_third (b c : Z) :
  0 <= b < 256 -> 0 <= c < 256 ->
  Z.lor (Z.shiftl (Z.land ((b mod 16) * 4 + c / 64) 3) 6)
        (Z.land (c mod 64) 63) = c.
Proof.
  intros Hb Hc. destruct (sextet_range b c Hb Hc) as (_ & _ & H3 & _).
  destruct (sextet_range c c Hc Hc) as (_ & _ & _ & H4 & _).
  destruct (sextet_bits _ _ H3 H4) as (_ & _ & ->).
  Z.to_euclidean_division_equations. lia.
Qed.

Lemma sextets_char (x : Z) (r : jsstring) :
  0 <= x < 64 -> sextets (base64_char x :: r) = x :: sextets r.
Proof.
  intros Hx. destruct (unbase64_base64_char x Hx) as [H1 H2].
  cbn [sextets]. now rewrite H2, H1.
Qed.

Lemma base64_decode_encode_bounded (n : nat) :
  forall bytes, (length bytes <= n)%nat ->
  Forall (fun b => 0 <= b < 256) bytes ->
  base64_decode (base64_encode bytes) = bytes.
Proof.
  induction n as [|n IH]; intros [|a [|b [|c r]]] Hlen Hall;
    try reflexivity; try (cbn in Hlen; lia).
  - inversion Hall as [|? ? Ha _]; subst.
    destruct (sextet_range a 0 Ha ltac:(lia)) as (H1 & _ & _ & _ & H5 & _).
    unfold base64_decode. cbn [base64_encode].
    rewrite !sextets_char by assumption. cbn [sextets sextets_to_bytes].
    change (low_byte 61 =? 61) with true. cbn [sextets_to_bytes].
    f_equal. rewrite <- (decode_first a 0) at 3 by lia.
    now rewrite Z.add_0_r.
  - inversion Hall as [|? ? Ha Hall']; subst.
    inversion Hall' as [|? ? Hb _]; subst.
    destruct (sextet_range a b Ha Hb) as (H1 & H2 & _).
    destruct (sextet_range b 0 Hb ltac:(lia)) as (_ & _ & _ & _ & _ & H6).
    unfold base64_decode. cbn [base64_encode].
    rewrite !sextets_char by assumption. cbn [sextets].
    change (low_byte 61 =? 61) with true. cbn [sextets_to_bytes].
    rewrite decode_first by assumption.
    f_equal. f_equal. rewrite <- (decode_second a b 0) at 3 by lia.
    now rewrite Z.add_0_r.
  - inversion Hall as [|? ? Ha Hall']; subst.
    inversion Hall' as [|? ? Hb Hall'']; subst.
    inversion Hall'' as [|? ? Hc Hr]; subst.
    destruct (sextet_range a b Ha Hb) as (H1 & H2 & _).
    destruct (sextet_range b c Hb Hc) as (_ & _ & H3 & _).
    destruct (sextet_range c c Hc Hc) as (_ & _ & _ & H4 & _).
    unfold base64_decode. cbn [base64_encode].
    rewrite !sextets_char by assumption. cbn [sextets_to_bytes].
    rewrite decode_first, decode_second, decode_third by assumption.
    do 3 f_equal. apply IH; [cbn in Hlen; lia | exact Hr].
Qed.

(** Decoding the RFC 4648 encoding of a sequence of bytes gives the
    bytes back. *)
Lemma base64_decode_encode (bytes : list Z) :
  Forall (fun b => 0 <= b < 256) bytes ->
  base64_decode (base64_encode bytes) = bytes.
Proof. apply (base64_decode_encode_bounded (length bytes)). lia. Qed.

Lemma toString_ascii_id (text : jsstring) :
  Forall (fun c => 0 <= c < 128) text -> toString_ascii text = text.
Proof.
  assert (H : below 128 (fun c => Z.land c 127 =? c) = true)
    by (vm_compute; reflexivity).
  induction 1 as [|c r Hc _ IH]; [reflexivity|].
  cbn [toString_ascii map]. fold (toString_ascii r). rewrite IH. f_equal.
  apply Z.eqb_eq. exact (below_spec _ _ H c Hc).
Qed.

(** An ascii text that arrives base64-encoded is the [value] of the
    document. *)
Lemma ascii_payload_value (text : jsstring) :
  Forall (fun c => 0 <= c < 128) text ->
  toString_ascii (base64_decode (base64_encode text)) = text.
Proof.
  intros H. rewrite base64_decode_encode, toString_ascii_id; auto.
  eapply Forall_impl; [|exact H]. cbv beta. intros c Hc. lia.
Qed.

Example base64_Hello : base64_encode (lit "Hello") = lit "SGVsbG8=".
Proof. vm_compute. reflexivity. Qed.

(* ================================================================== *)
(** * The loops of the three builders *)
(* ================================================================== *)

Lemma split_lines_unlines (ls : list jsstring) :
  Forall (fun l => no_LF l = true) ls -> split_lines (unlines ls) = (ls, []).
Proof.
  induction 1 as [|l r Hl _ IH]; [reflexivity|].
  cbn [unlines]. rewrite split_lines_line by exact Hl. now rewrite IH.
Qed.

Lemma tick_tick (n m : nat) (w : World) : tick n (tick m w) = tick (n + m) w.
Proof. unfold tick. cbn [ticks requests callbacks]. f_equal. lia. Qed.

Lemma tick_0 (w : World) : tick 0 w = w.
Proof. now destruct w. Qed.

Lemma field_lookup (k : jsstring) (ps : list (jsstring * value)) (v : value) :
  lookup k ps = Some v -> field k ps = v.
Proof. unfold field. now intros ->. Qed.

(** Brings nested appends into right-nested form. *)
Ltac norm_app := repeat (progress (rewrite <- ?app_assoc; cbn [app])).

Section Loops.

Variable env : Env.

Lemma notification_step_obj (bulk : jsstring) (ps : list (jsstring * value))
    (w : World) :
  has_string_payload ps ->
  notification_step env bulk (VObj ps) w
  = (Ok (bulk ++ unlines [action_text "notifications";
                          stringify_text
                            (notification_record (clock env (ticks w)) ps)]),
     tick 1 w).
Proof.
  intros [p Hp]. unfold notification_step, bind, lift, ret, Date_now, Get.
  rewrite Hp. cbn [Buffer_from_base64].
  rewrite document_line_obj.
  unfold notification_record, text_field, field. rewrite Hp.
  cbn [unlines]. rewrite <- !app_assoc. reflexivity.
Qed.

Lemma notifications_loop (items : list (list (jsstring * value))) :
  Forall has_string_payload items ->
  forall bulk w,
    for_of (map VObj items) (notification_step env) bulk w
    = (Ok (bulk ++ unlines (notification_lines (clock env) (ticks w) items)),
       tick (length items) w).
Proof.
  induction 1 as [|ps r Hps _ IH]; intros bulk w.
  - cbn. now rewrite app_nil_r, tick_0.
  - cbn [map for_of]. unfold bind at 1.
    rewrite notification_step_obj by exact Hps.
    rewrite IH, tick_tick. change (ticks (tick 1 w)) with (S (ticks w)).
    cbn [notification_lines unlines length]. norm_app.
    replace (length r + 1)%nat with (S (length r)) by lia. reflexivity.
Qed.

Lemma registration_step_obj (bulk : jsstring) (ps : list (jsstring * value))
    (w : World) :
  registration_step env bulk (VObj ps) w
  = (Ok (bulk ++ unlines [action_text "devices";
                          stringify_text (device_record (clock env (ticks w)) ps);
                          action_text "registrations";
                          stringify_text
                            (registration_record (clock env (S (ticks w))) ps)]),
     tick 2 w).
Proof.
  unfold registration_step, bind, lift, ret, Date_now, Get.
  rewrite !document_line_obj.
  cbn [unlines ticks]. rewrite <- !app_assoc. reflexivity.
Qed.

Lemma registrations_loop (items : list (list (jsstring * value))) :
  forall bulk w,
    for_of (map VObj items) (registration_step env) bulk w
    = (Ok (bulk ++ unlines (registration_lines (clock env) (ticks w) items)),
       tick (2 * length items) w).
Proof.
  induction items as [|ps r IH]; intros bulk w.
  - cbn. now rewrite app_nil_r, tick_0.
  - cbn [map for_of]. unfold bind at 1. rewrite registration_step_obj.
    rewrite IH, tick_tick. change (ticks (tick 2 w)) with (S (S (ticks w))).
    cbn [registration_lines unlines length]. norm_app.
    replace (2 * length r + 2)%nat with (2 * S (length r))%nat by lia.
    reflexivity.
Qed.

Lemma expiration_step_any (bulk : jsstring) (item : value) (w : World) :
  expiration_step env bulk item w
  = (Ok (bulk ++ unlines [action_text "registrations";
                          stringify_text
                            (expiration_record (clock env (ticks w)) item)]),
     tick 1 w).
Proof.
  unfold expiration_step, bind, lift, ret, Date_now.
  rewrite document_line_obj.
  cbn [unlines]. rewrite <- !app_assoc. reflexivity.
Qed.

Lemma expirations_loop (items : list value) :
  forall bulk w,
    for_of items (expiration_step env) bulk w
    = (Ok (bulk ++ unlines (expiration_lines (clock env) (ticks w) items)),
       tick (length items) w).
Proof.
  induction items as [|item r IH]; intros bulk w.
  - cbn. now rewrite app_nil_r, tick_0.
  - cbn [for_of]. unfold bind at 1. rewrite expiration_step_any.
    rewrite IH, tick_tick. change (ticks (tick 1 w)) with (S (ticks w)).
    cbn [expiration_lines unlines length]. norm_app.
    replace (length r + 1)%nat with (S (length r)) by lia. reflexivity.
Qed.

Lemma notification_lines_no_LF (clock : nat -> Z)
    (items : list (list (jsstring * value))) :
  forall t, Forall (fun l => no_LF l = true) (notification_lines clock t items).
Proof.
  induction items as [|ps r IH]; intros t; cbn [notification_lines];
    repeat constructor; auto using stringify_text_no_LF.
Qed.

Lemma registration_lines_no_LF (clock : nat -> Z)
    (items : list (list (jsstring * value))) :
  forall t, Forall (fun l => no_LF l = true) (registration_lines clock t items).
Proof.
  induction items as [|ps r IH]; intros t; cbn [registration_lines];
    repeat constructor; auto using stringify_text_no_LF.
Qed.

Lemma expiration_lines_no_LF (clock : nat -> Z) (items : list value) :
  forall t, Forall (fun l => no_LF l = true) (expiration_lines clock t items).
Proof.
  induction items as [|ps r IH]; intros t; cbn [expiration_lines];
    repeat constructor; auto using stringify_text_no_LF.
Qed.

Lemma notification_lines_length (clock : nat -> Z)
    (items : list (list (jsstring * value))) :
  forall t, length (notification_lines clock t items) = (2 * length items)%nat.
Proof.
  induction items as [|ps r IH]; intros t; [reflexivity|].
  cbn [notification_lines length]. rewrite IH. lia.
Qed.

Lemma registration_lines_length (clock : nat -> Z)
    (items : list (list (jsstring * value))) :
  forall t, length (registration_lines clock t items) = (4 * length items)%nat.
Proof.
  induction items as [|ps r IH]; intros t; [reflexivity|].
  cbn [registration_lines length]. rewrite IH. lia.
Qed.

Lemma expiration_lines_length (clock : nat -> Z) (items : list value) :
  forall t, length (expiration_lines clock t items) = (2 * length items)%nat.
Proof.
  induction items as [|ps r IH]; intros t; [reflexivity|].
  cbn [expiration_lines length]. rewrite IH. lia.
Qed.

(** ** The request and its outcome *)

Lemma fold_left_app_concat (chunks : list jsstring) (acc : jsstring) :
  fold_left (fun body chunk => body ++ chunk) chunks acc = acc ++ concat chunks.
Proof.
  revert acc; induction chunks as [|c r IH]; intros acc; cbn.
  - now rewrite app_nil_r.
  - now rewrite IH, app_assoc.
Qed.

(** Whatever the network does, [sendRequest] reads the clock once and
    hands exactly one request to the HTTP client, and calls no callback. *)
Lemma sendRequest_world (httpMethod requestPath payload : jsstring) (w : World) :
  snd (sendRequest env httpMethod requestPath payload w)
  = mkWorld (S (ticks w))
      (requests w ++ [signed_request env httpMethod requestPath payload
                        (clock env (ticks w))])
      (callbacks w).
Proof.
  unfold sendRequest, bind, Date_now, transmit, ret, throw.
  cbn [ticks requests callbacks].
  destruct (handleRequest env _) as [st sm hs chunks|err|];
    [|reflexivity|reflexivity].
  match goal with
  | |- context [match ?body with [] => _ | _ :: _ => _ end] => destruct body
  end; [reflexivity|].
  destruct (JSON_parse env _); reflexivity.
Qed.

Lemma report_world (promise : settled) (w : World) :
  ticks (snd (report done promise w)) = ticks w
  /\ requests (snd (report done promise w)) = requests w.
Proof. destruct promise; split; reflexivity. Qed.

(** The requests after building a payload, sending it and reporting. *)
Lemma send_requests (bulk : jsstring) (w : World) :
  requests (snd (bind (sendRequest env (lit "POST") (lit "/_bulk") bulk)
                   (report done) w))
  = requests w ++ [signed_request env (lit "POST") (lit "/_bulk") bulk
                     (clock env (ticks w))].
Proof.
  unfold bind.
  pose proof (sendRequest_world (lit "POST") (lit "/_bulk") bulk w) as Hw.
  destruct (sendRequest env (lit "POST") (lit "/_bulk") bulk w) as [[p|e] w'];
    cbn [snd] in *.
  - destruct (report_world p w') as [_ ->]. now rewrite Hw.
  - now rewrite Hw.
Qed.

End Loops.

(* ================================================================== *)
(** * The bulk payloads of valid batches *)
(* ================================================================== *)

Lemma stringify_defined (v : value) :
  v <> VUndefined -> JSON_stringify v = Some (stringify_text v).
Proof.
  intros H. unfold stringify_text, JSON_stringify.
  destruct v as [| |[|]| | | | |]; try reflexivity. now elim H.
Qed.

Lemma valid_notifications (items : list value) (ns : list Notification) :
  Forall2 is_notification items ns ->
  exists pss,
    items = map VObj pss
    /\ Forall has_string_payload pss
    /\ forall clock t, notification_lines clock t pss = notification_bulk clock t ns.
Proof.
  induction 1 as [|item n items ns (ps & -> & Hep & Hpath & Hpay) _ (pss & -> & Hall & Hlines)].
  - exists []. repeat split; auto.
  - exists (ps :: pss). repeat split.
    + constructor; [now exists (payload n) | exact Hall].
    + intros clock t. cbn [notification_lines notification_bulk].
      rewrite Hlines. unfold notification_record, notification_document, text_field.
      now rewrite (field_lookup _ _ _ Hep), (field_lookup _ _ _ Hpath), Hpay.
Qed.

Lemma valid_registrations (items : list value) (rs : list Registration) :
  Forall2 is_registration items rs ->
  exists pss,
    items = map VObj pss
    /\ forall clock t, registration_lines clock t pss = registration_bulk clock t rs.
Proof.
  induction 1 as [|item r items rs (ps & -> & Hep & Horig & Hept & Hres & Hdef) _ (pss & -> & Hlines)].
  - exists []. split; auto.
  - exists (ps :: pss). split; [reflexivity|].
    intros clock t. cbn [registration_lines registration_bulk].
    rewrite Hlines.
    unfold device_record, registration_record, device_document,
      registration_document, resources_text.
    rewrite (field_lookup _ _ _ Hep), (field_lookup _ _ _ Horig),
      (field_lookup _ _ _ Hept), (field_lookup _ _ _ Hres).
    now rewrite (stringify_defined _ Hdef).
Qed.

Lemma valid_expirations (clock : nat -> Z) (names : list jsstring) :
  forall t, expiration_lines clock t (map VStr names) = expiration_bulk clock t names.
Proof.
  induction names as [|name r IH]; intros t; [reflexivity|].
  cbn [map expiration_lines expiration_bulk]. now rewrite IH.
Qed.

(** The lines of the expected payloads by position: the lines of the
    i-th item come i-th, the action line before the document. *)
Lemma notification_bulk_nth (clock : nat -> Z) (ns : list Notification) :
  forall t i n,
    nth_error ns i = Some n ->
    nth_error (notification_bulk clock t ns) (2 * i)
    = Some (action_text "notifications")
    /\ nth_error (notification_bulk clock t ns) (2 * i + 1)
       = Some (notification_document (clock (t + i)%nat) n).
Proof.
  induction ns as [|m r IH]; intros t [|i] n H; try discriminate.
  - injection H as ->. cbn. now rewrite Nat.add_0_r.
  - cbn [nth_error] in H. destruct (IH (S t) i n H) as [H1 H2].
    replace (2 * S i)%nat with (S (S (2 * i))) by lia.
    replace (t + S i)%nat with (S t + i)%nat by lia.
    cbn [notification_bulk nth_error Nat.add]. auto.
Qed.

Lemma registration_bulk_nth (clock : nat -> Z) (rs : list Registration) :
  forall t i r,
    nth_error rs i = Some r ->
    nth_error (registration_bulk clock t rs) (4 * i)
    = Some (action_text "devices")
    /\ nth_error (registration_bulk clock t rs) (4 * i + 1)
       = Some (device_document (clock (t + 2 * i)%nat) r)
    /\ nth_error (registration_bulk clock t rs) (4 * i + 2)
       = Some (action_text "registrations")
    /\ nth_error (registration_bulk clock t rs) (4 * i + 3)
       = Some (registration_document (clock (t + 2 * i + 1)%nat) r).
Proof.
  induction rs as [|m rest IH]; intros t [|i] r H; try discriminate.
  - injection H as ->. cbn.
    now rewrite !Nat.add_0_r, Nat.add_1_r.
  - cbn [nth_error] in H.
    destruct (IH (S (S t)) i r H) as (H1 & H2 & H3 & H4).
    replace (4 * S i)%nat with (S (S (S (S (4 * i))))) by lia.
    replace (t + 2 * S i)%nat with (S (S t) + 2 * i)%nat by lia.
    cbn [registration_bulk nth_error Nat.add]. auto.
Qed.

Lemma expiration_bulk_nth (clock : nat -> Z) (names : list jsstring) :
  forall t i name,
    nth_error names i = Some name ->
    nth_error (expiration_bulk clock t names) (2 * i)
    = Some (action_text "registrations")
    /\ nth_error (expiration_bulk clock t names) (2 * i + 1)
       = Some (stringify_text (VObj [(lit "time", VNum (clock (t + i)%nat));
                                     (lit "endpoint", VStr name);
                                     (lit "value", VNum 0)])).
Proof.
  induction names as [|m r IH]; intros t [|i] name H; try discriminate.
  - injection H as ->. cbn [expiration_bulk nth_error Nat.mul Nat.add].
    now rewrite Nat.add_0_r.
  - cbn [nth_error] in H. destruct (IH (S t) i name H) as [H1 H2].
    replace (2 * S i)%nat with (S (S (2 * i))) by lia.
    replace (t + S i)%nat with (S t + i)%nat by lia.
    cbn [expiration_bulk nth_error Nat.add]. auto.
Qed.

(** C1: for a valid notifications array of N items (objects with strings
    [ep], [path] and [payload], the payload single-byte text as base64 is),
    [sendNotifications] hands the HTTP client one request whose body
    consists of exactly 2N newline-terminated lines: for each item, in input
    order, the [notifications] action line and then the document whose
    [endpoint] is the item's [ep], whose [path] is the item's [path] and
    whose [value] is the item's [payload] decoded from base64 and read as
    ascii text; for a payload that is the base64 encoding of some bytes
    that text is those bytes, each reduced modulo 128. *)
Theorem sendNotifications_bulk_payload (env : Env) (items : list value)
    (ns : list Notification) (w : World) :
  Forall2 is_notification items ns ->
  Forall (fun n => single_byte (payload n)) ns ->
  exists bulk request,
    notifications_bulk env (VArr items) w = (Ok bulk, tick (length items) w)
    /\ requests (snd (sendNotifications env (VArr items) done w))
       = requests w ++ [request]
    /\ req_body request = bulk
    /\ split_lines bulk = (notification_bulk (clock env) (ticks w) ns, [])
    /\ length (notification_bulk (clock env) (ticks w) ns)
       = (2 * length items)%nat
    /\ (forall n bytes time,
          In n ns ->
          payload n = base64_encode bytes ->
          Forall (fun b => 0 <= b < 256) bytes ->
          notification_document time n
          = stringify_text
              (VObj [(lit "time", VNum time);
                     (lit "endpoint", VStr (ep n));
                     (lit "path", VStr (path n));
                     (lit "value", VStr (map (fun b => b mod 128) bytes))])).
Proof.
  intros H _. destruct (valid_notifications _ _ H) as (pss & -> & Hall & Hlines).
  assert (Hbulk : notifications_bulk env (VArr (map VObj pss)) w
                  = (Ok (unlines (notification_lines (clock env) (ticks w) pss)),
                     tick (length pss) w)).
  { unfold notifications_bulk, bind, lift, iterate.
    now rewrite notifications_loop. }
  rewrite length_map.
  eexists. eexists. split; [exact Hbulk|].
  split; [|split; [|split; [|split]]].
  - unfold sendNotifications, bind at 1. rewrite Hbulk.
    exact (send_requests env _ (tick (length pss) w)).
  - reflexivity.
  - rewrite <- Hlines. apply split_lines_unlines, notification_lines_no_LF.
  - rewrite <- Hlines. apply notification_lines_length.
  - intros n bytes time _ Hp Hbytes. unfold notification_document.
    rewrite Hp, (base64_decode_encode bytes Hbytes).
    assert (E : toString_ascii bytes = map (fun b => b mod 128) bytes).
    { unfold toString_ascii. apply map_ext. intros b0.
      change 127 with (Z.ones 7). now rewrite Z.land_ones by lia. }
    now rewrite E.
Qed.

Lemma sendNotifications_bulk_payload_witness :
  exists bulk request,
    notifications_bulk sample_env (VArr [node1_notification]) initial_world
    = (Ok bulk, tick 1 initial_world)
    /\ requests (snd (sendNotifications sample_env
                        (VArr [node1_notification]) done initial_world))
       = [] ++ [request]
    /\ req_body request = bulk
    /\ split_lines bulk
       = ([lit "{'index':{'_index':'notifications','_type':'_doc'}}";
           lit "{'time':1546300800000,'endpoint':'node1','path':'/3/0/1','value':'Hello'}"],
          []).
Proof.
  assert (H : Forall2 is_notification [node1_notification]
                [mkNotification (lit "node1") (lit "/3/0/1") (lit "SGVsbG8=")]).
  { constructor; [|constructor].
    eexists. split; [reflexivity|]. repeat split; reflexivity. }
  assert (Hb : Forall (fun n => single_byte (payload n))
                 [mkNotification (lit "node1") (lit "/3/0/1") (lit "SGVsbG8=")]).
  { repeat constructor; cbn; lia. }
  destruct (sendNotifications_bulk_payload sample_env _ _ initial_world H Hb)
    as (bulk & request & H1 & H2 & H3 & H4 & _).
  exists bulk, request. repeat split; assumption.
Defined.

(** C2: for a valid registrations array of N items (objects with strings
    [ep], [original-ep] and [ept] and a parsed value [resources], its
    numbers safe integers or decimals in their shortest digits),
    [sendRegistrations] hands the HTTP client one request whose body
    consists of exactly 4N newline-terminated lines: for each item, in
    order, the [devices] action line, the document
    [{time, endpoint, original-ep, ept, resources}] whose [resources] is the
    JSON text of the item's resources as a string, the [registrations]
    action line and the document [{time, endpoint, value: 1}]. *)
Theorem sendRegistrations_bulk_payload (env : Env) (items : list value)
    (rs : list Registration) (w : World) :
  Forall2 is_registration items rs ->
  Forall (fun r => plain (r_resources r) = true) rs ->
  exists bulk request,
    registrations_bulk env (VArr items) w
    = (Ok bulk, tick (2 * length items) w)
    /\ requests (snd (sendRegistrations env (VArr items) done w))
       = requests w ++ [request]
    /\ req_body request = bulk
    /\ split_lines bulk = (registration_bulk (clock env) (ticks w) rs, [])
    /\ length (registration_bulk (clock env) (ticks w) rs)
       = (4 * length items)%nat.
Proof.
  intros H _. destruct (valid_registrations _ _ H) as (pss & -> & Hlines).
  assert (Hbulk : registrations_bulk env (VArr (map VObj pss)) w
                  = (Ok (unlines (registration_lines (clock env) (ticks w) pss)),
                     tick (2 * length pss) w)).
  { unfold registrations_bulk, bind, lift, iterate.
    now rewrite registrations_loop. }
  rewrite length_map.
  eexists. eexists. split; [exact Hbulk|]. split; [|split; [|split]].
  - unfold sendRegistrations, bind at 1. rewrite Hbulk.
    exact (send_requests env _ (tick (2 * length pss) w)).
  - reflexivity.
  - rewrite <- Hlines. apply split_lines_unlines, registration_lines_no_LF.
  - rewrite <- Hlines. apply registration_lines_length.
Qed.

Lemma sendRegistrations_bulk_payload_witness :
  exists bulk request,
    registrations_bulk sample_env (VArr [resourceful_registration])
      initial_world
    = (Ok bulk, tick 2 initial_world)
    /\ requests (snd (sendRegistrations sample_env
                        (VArr [resourceful_registration]) done initial_world))
       = [] ++ [request]
    /\ req_body request = bulk
    /\ split_lines bulk
       = ([lit "{'index':{'_index':'devices','_type':'_doc'}}";
           lit "{'time':1546300800000,'endpoint':'node1','original-ep':'dev-1','ept':'sensor','resources':'[{\'path\':\'/3/0/1\',\'obs\':true,\'size\':12,\'gain\':1.5,\'top\':1e+21}]'}";
           lit "{'index':{'_index':'registrations','_type':'_doc'}}";
           lit "{'time':1546300800001,'endpoint':'node1','value':1}"],
          []).
Proof.
  assert (H : Forall2 is_registration [resourceful_registration]
                [mkRegistration (lit "node1") (lit "dev-1") (lit "sensor")
                   (field (lit "resources")
                      match resourceful_registration with
                      | VObj ps => ps
                      | _ => []
                      end)]).
  { constructor; [|constructor].
    eexists. split; [reflexivity|]. repeat split; try reflexivity.
    discriminate. }
  assert (Hp : Forall (fun r => plain (r_resources r) = true)
                 [mkRegistration (lit "node1") (lit "dev-1") (lit "sensor")
                    (field (lit "resources")
                       match resourceful_registration with
                       | VObj ps => ps
                       | _ => []
                       end)]).
  { repeat constructor. }
  destruct (sendRegistrations_bulk_payload sample_env _ _ initial_world H Hp)
    as (bulk & request & H1 & H2 & H3 & H4 & _).
  exists bulk, request. repeat split; assumption.
Defined.

(** C3: for an array of N endpoint names (plain strings),
    [sendExpirations] hands the HTTP client one request whose body consists
    of exactly 2N newline-terminated lines: for each name, in order, the
    [registrations] action line and the document whose [endpoint] is the
    name itself and whose [value] is 0. *)
Theorem sendExpirations_bulk_payload (env : Env) (names : list jsstring)
    (w : World) :
  exists bulk request,
    expirations_bulk env (VArr (map VStr names)) w
    = (Ok bulk, tick (length names) w)
    /\ requests (snd (sendExpirations env (VArr (map VStr names)) done w))
       = requests w ++ [request]
    /\ req_body request = bulk
    /\ split_lines bulk = (expiration_bulk (clock env) (ticks w) names, [])
    /\ length (expiration_bulk (clock env) (ticks w) names)
       = (2 * length names)%nat.
Proof.
  assert (Hbulk : expirations_bulk env (VArr (map VStr names)) w
                  = (Ok (unlines (expiration_lines (clock env) (ticks w)
                                    (map VStr names))),
                     tick (length names) w)).
  { unfold expirations_bulk, bind, lift, iterate.
    now rewrite expirations_loop, length_map. }
  eexists. eexists. split; [exact Hbulk|]. split; [|split; [|split]].
  - unfold sendExpirations, bind at 1. rewrite Hbulk.
    exact (send_requests env _ (tick (length names) w)).
  - reflexivity.
  - rewrite <- valid_expirations.
    apply split_lines_unlines, expiration_lines_no_LF.
  - rewrite <- valid_expirations, expiration_lines_length.
    now rewrite length_map.
Qed.

(* ================================================================== *)
(** * Items with absent fields *)
(* ================================================================== *)

(** The specification's example: one notification gives one bulk pair. *)
Example node1_notification_bulk :
  notifications_bulk sample_env (VArr [node1_notification]) initial_world
  = (Ok (unlines
           [lit "{'index':{'_index':'notifications','_type':'_doc'}}";
            lit "{'time':1546300800000,'endpoint':'node1','path':'/3/0/1','value':'Hello'}"]),
     tick 1 initial_world).
Proof. vm_compute. reflexivity. Qed.

(** The specification's example: two expired endpoints give four lines. *)
Example two_expirations_bulk :
  expirations_bulk sample_env (VArr [VStr (lit "node1"); VStr (lit "node2")])
    initial_world
  = (Ok (unlines
           [lit "{'index':{'_index':'registrations','_type':'_doc'}}";
            lit "{'time':1546300800000,'endpoint':'node1','value':0}";
            lit "{'index':{'_index':'registrations','_type':'_doc'}}";
            lit "{'time':1546300800001,'endpoint':'node2','value':0}"]),
     tick 2 initial_world).
Proof. vm_compute. reflexivity. Qed.

Example node1_registration_bulk :
  registrations_bulk sample_env (VArr [node1_registration]) initial_world
  = (Ok (unlines
           [lit "{'index':{'_index':'devices','_type':'_doc'}}";
            lit "{'time':1546300800000,'endpoint':'node1','original-ep':'dev-1','ept':'sensor','resources':'[{\'path\':\'/3/0/1\',\'obs\':true}]'}";
            lit "{'index':{'_index':'registrations','_type':'_doc'}}";
            lit "{'time':1546300800001,'endpoint':'node1','value':1}"]),
     tick 2 initial_world).
Proof. vm_compute. reflexivity. Qed.

(** A notification without [ep]: the document has no [endpoint] key. *)
Example notification_without_ep_document :
  stringify_text (notification_record 1546300800000 notification_without_ep)
  = lit "{'time':1546300800000,'path':'/3/0/1','value':'Hello'}".
Proof. vm_compute. reflexivity. Qed.

(** C8, as stated, fails: a notification item without [payload] makes
    [Buffer.from] throw, the loop is left before any later item is
    processed, no request is sent and the callback is not called. *)
Lemma notification_without_payload_throws :
  Get notification_without_payload (lit "payload") = Ok VUndefined
  /\ sendNotifications sample_env
       (VArr [notification_without_payload; node1_notification]) done
       initial_world
     = (Throw (TypeError "The first argument must be of type string"),
        initial_world).
Proof. split; vm_compute; reflexivity. Qed.

Lemma without_undefined_text (ps : list (jsstring * value)) :
  stringify_text (VObj ps) = stringify_text (without_undefined (VObj ps)).
Proof. symmetry. apply stringify_text_present. Qed.

(** C8, amended: for batches of object items in which every notification
    carries a string [payload] of single-byte text (and every number is a
    safe integer or a decimal), neither builder throws; every item gives
    its lines, in order; and a field the item lacks is left out of the
    serialized document ([JSON.stringify] drops a property whose value is
    [undefined]; it does not write [null]). *)
Theorem builders_omit_absent_fields (env : Env)
    (notifications registrations : list (list (jsstring * value)))
    (w : World) :
  Forall has_string_payload notifications ->
  Forall has_single_byte_payload notifications ->
  Forall plain_item notifications ->
  Forall plain_item registrations ->
  (exists bulk,
     notifications_bulk env (VArr (map VObj notifications)) w
     = (Ok bulk, tick (length notifications) w)
     /\ split_lines bulk
        = (notification_lines (clock env) (ticks w) notifications, []))
  /\ (exists bulk,
     registrations_bulk env (VArr (map VObj registrations)) w
     = (Ok bulk, tick (2 * length registrations) w)
     /\ split_lines bulk
        = (registration_lines (clock env) (ticks w) registrations, []))
  /\ (forall t ps,
        stringify_text (notification_record t ps)
        = stringify_text (without_undefined (notification_record t ps))
        /\ stringify_text (device_record t ps)
           = stringify_text (without_undefined (device_record t ps))
        /\ stringify_text (registration_record t ps)
           = stringify_text (without_undefined (registration_record t ps))).
Proof.
  intros Hall _ _ _. split; [|split].
  - eexists. split.
    + unfold notifications_bulk, bind, lift, iterate.
      now rewrite notifications_loop.
    + apply split_lines_unlines, notification_lines_no_LF.
  - eexists. split.
    + unfold registrations_bulk, bind, lift, iterate.
      now rewrite registrations_loop.
    + apply split_lines_unlines, registration_lines_no_LF.
  - intros t ps. repeat split; apply without_undefined_text.
Qed.

Lemma builders_omit_absent_fields_witness :
  (exists bulk,
     notifications_bulk sample_env (VArr [VObj notification_without_ep])
       initial_world
     = (Ok bulk, tick 1 initial_world)
     /\ split_lines bulk
        = ([lit "{'index':{'_index':'notifications','_type':'_doc'}}";
            lit "{'time':1546300800000,'path':'/3/0/1','value':'Hello'}"], []))
  /\ (exists bulk,
     registrations_bulk sample_env
       (VArr [VObj [(lit "ept", VStr (lit "sensor"))]]) initial_world
     = (Ok bulk, tick 2 initial_world)
     /\ split_lines bulk
        = ([lit "{'index':{'_index':'devices','_type':'_doc'}}";
            lit "{'time':1546300800000,'ept':'sensor'}";
            lit "{'index':{'_index':'registrations','_type':'_doc'}}";
            lit "{'time':1546300800001,'value':1}"], [])).
Proof.
  assert (H : Forall has_string_payload [notification_without_ep]).
  { constructor; [|constructor]. exists (lit "SGVsbG8="). reflexivity. }
  assert (Hb : Forall has_single_byte_payload [notification_without_ep]).
  { constructor; [|constructor]. repeat constructor; cbn; lia. }
  assert (Hn : Forall plain_item [notification_without_ep]).
  { repeat constructor. }
  assert (Hr : Forall plain_item [[(lit "ept", VStr (lit "sensor"))]]).
  { repeat constructor. }
  destruct (builders_omit_absent_fields sample_env
              [notification_without_ep] [[(lit "ept", VStr (lit "sensor"))]]
              initial_world H Hb Hn Hr) as (H1 & H2 & _).
  split; assumption.
Defined.

(** A registration item with [ept] only: both documents lack [endpoint],
    the first lacks [original-ep] and [resources] too. *)
Example registration_with_ept_only :
  registrations_bulk sample_env (VArr [VObj [(lit "ept", VStr (lit "sensor"))]])
    initial_world
  = (Ok (unlines
           [lit "{'index':{'_index':'devices','_type':'_doc'}}";
            lit "{'time':1546300800000,'ept':'sensor'}";
            lit "{'index':{'_index':'registrations','_type':'_doc'}}";
            lit "{'time':1546300800001,'value':1}"]),
     tick 2 initial_world).
Proof. vm_compute. reflexivity. Qed.

(* ================================================================== *)
(** * The dispatch on the parsed body *)
(* ================================================================== *)

(** The dispatch of lines 52-84 selects a branch from the body alone and
    then runs it. *)
Lemma dispatch_classify (env : Env) (body : value) (w : World) :
  dispatch env body w = bind (lift (classify body)) (run_branch env) w.
Proof.
  unfold dispatch, classify, bind, lift, ret, run_branch.
  destruct (hasOwnProperty body (lit "notifications")) as [[|]|e];
    [destruct (Get body (lit "notifications")); reflexivity | | reflexivity].
  destruct (hasOwnProperty body (lit "registrations")) as [[|]|e];
    [destruct (Get body (lit "registrations")); reflexivity | | reflexivity].
  destruct (hasOwnProperty body (lit "reg-updates")) as [[|]|e];
    [destruct (Get body (lit "reg-updates")); reflexivity | | reflexivity].
  destruct (hasOwnProperty body (lit "registrations-expired")) as [[|]|e];
    [destruct (Get body (lit "registrations-expired")); reflexivity
    | reflexivity | reflexivity].
Qed.

(** The selected branch of an object depends only on which of five keys
    the object has. *)
Lemma classify_selection (ps : list (jsstring * value)) :
  selection_of (classify (VObj ps))
  = selection_by_keys (has_key "hasOwnProperty" ps) (has_key "notifications" ps)
      (has_key "registrations" ps) (has_key "reg-updates" ps)
      (has_key "registrations-expired" ps).
Proof.
  unfold classify, hasOwnProperty, Get, has_key.
  destruct (lookup (lit "hasOwnProperty") ps); [reflexivity|].
  destruct (lookup (lit "notifications") ps); [reflexivity|].
  destruct (lookup (lit "registrations") ps); [reflexivity|].
  destruct (lookup (lit "reg-updates") ps); [reflexivity|].
  destruct (lookup (lit "registrations-expired") ps); reflexivity.
Qed.

(** C5, as stated, fails: a body with [registrations] and [reg-updates]
    that also has [notifications] takes the notifications branch, and the
    registration handler is not called. *)
Lemma mixed_body_selects_notifications :
  hasOwnProperty mixed_body (lit "registrations") = Ok true
  /\ hasOwnProperty mixed_body (lit "reg-updates") = Ok true
  /\ classify mixed_body = Ok (Notifications (VArr [node1_notification]))
  /\ dispatch sample_env mixed_body initial_world
     = sendNotifications sample_env (VArr [node1_notification]) done
         initial_world.
Proof. repeat split; vm_compute; reflexivity. Qed.

(** C5, amended: for a body (an object whose [hasOwnProperty] is the
    inherited one) that has both [registrations] and [reg-updates] and does
    not have [notifications], the registrations branch is selected and the
    registration handler receives [body.registrations]; and the selection
    is a function of which keys the body has, so two bodies with the same
    keys select the same branch. *)
Theorem registrations_before_reg_updates (env : Env)
    (ps : list (jsstring * value)) (r u : value) :
  lookup (lit "hasOwnProperty") ps = None ->
  lookup (lit "notifications") ps = None ->
  lookup (lit "registrations") ps = Some r ->
  lookup (lit "reg-updates") ps = Some u ->
  classify (VObj ps) = Ok (Registrations r)
  /\ (forall w, dispatch env (VObj ps) w = sendRegistrations env r done w)
  /\ (forall ps1 ps2, same_keys ps1 ps2 ->
        selection_of (classify (VObj ps1)) = selection_of (classify (VObj ps2))).
Proof.
  intros Hown Hn Hr Hu.
  assert (Hc : classify (VObj ps) = Ok (Registrations r)).
  { unfold classify, hasOwnProperty, Get. now rewrite Hown, Hn, Hr. }
  split; [exact Hc|]. split.
  - intros w. rewrite dispatch_classify, Hc. reflexivity.
  - intros ps1 ps2 (H1 & H2 & H3 & H4 & H5).
    rewrite !classify_selection. congruence.
Qed.

Lemma registrations_before_reg_updates_witness :
  classify (VObj [(lit "registrations", VArr [node1_registration]);
                  (lit "reg-updates", VArr [])])
  = Ok (Registrations (VArr [node1_registration])).
Proof.
  exact (proj1 (registrations_before_reg_updates sample_env
                  [(lit "registrations", VArr [node1_registration]);
                   (lit "reg-updates", VArr [])]
                  (VArr [node1_registration]) (VArr [])
                  eq_refl eq_refl eq_refl eq_refl)).
Defined.

(* ================================================================== *)
(** * The handler *)
(* ================================================================== *)

Lemma put_event_method (text : value) :
  Get (put_event text) (lit "httpMethod") = Ok (VStr (lit "PUT")).
Proof. reflexivity. Qed.

Lemma put_event_has_body (text : value) :
  hasOwnProperty (put_event text) (lit "body") = Ok true.
Proof. reflexivity. Qed.

Lemma put_event_body (text : value) :
  Get (put_event text) (lit "body") = Ok text.
Proof. reflexivity. Qed.

(** A PUT event with a body that parses reaches the dispatch. *)
Lemma handler_put_event (env : Env) (text : jsstring) (body : value) (w : World) :
  JSON_parse env text = Some body ->
  handler env (put_event (VStr text)) w = dispatch env body w.
Proof.
  intros Hp. unfold handler, bind, lift.
  rewrite put_event_method.
  change (is_string (VStr (lit "PUT")) (lit "PUT")) with true. cbv iota.
  rewrite put_event_has_body, put_event_body.
  unfold parse, bind, lift, ToString, ret. now rewrite Hp.
Qed.

(** A body that is an object with none of the four keys is acknowledged:
    the callback gets the success response and nothing is sent. *)
Lemma handler_unknown_object (env : Env) (text : jsstring)
    (ps : list (jsstring * value)) (w : World) :
  JSON_parse env text = Some (VObj ps) ->
  lookup (lit "hasOwnProperty") ps = None ->
  lookup (lit "notifications") ps = None ->
  lookup (lit "registrations") ps = None ->
  lookup (lit "reg-updates") ps = None ->
  lookup (lit "registrations-expired") ps = None ->
  handler env (put_event (VStr text)) w
  = (Ok tt, add_callback success_response w).
Proof.
  intros Hp H0 H1 H2 H3 H4.
  rewrite (handler_put_event _ _ _ _ Hp), dispatch_classify.
  unfold classify, hasOwnProperty, bind, lift.
  rewrite H0, H1, H2, H3, H4. reflexivity.
Qed.

(** So is a body that is a boolean, a number, a string or an array. *)
Lemma handler_unknown_primitive (env : Env) (text : jsstring) (body : value)
    (w : World) :
  JSON_parse env text = Some body ->
  match body with
  | VBool _ | VNum _ | VStr _ | VArr _ => True
  | _ => False
  end ->
  handler env (put_event (VStr text)) w
  = (Ok tt, add_callback success_response w).
Proof.
  intros Hp Hb. rewrite (handler_put_event _ _ _ _ Hp), dispatch_classify.
  destruct body; try contradiction; reflexivity.
Qed.

(** C6, the code at the failing input: a PUT whose body parses to [null]
    (the JSON text [null]) has none of the four keys, yet the handler throws
    on [body.hasOwnProperty] and never calls the callback. *)
Theorem handler_null_body_throws (env : Env) (text : jsstring) (w : World) :
  JSON_parse env text = Some VNull ->
  classify VNull = Throw (TypeError "Cannot read property of undefined or null")
  /\ handler env (put_event (VStr text)) w
     = (Throw (TypeError "Cannot read property of undefined or null"), w).
Proof.
  intros Hp. split; [reflexivity|].
  rewrite (handler_put_event _ _ _ _ Hp). reflexivity.
Qed.

Lemma handler_null_body_throws_witness :
  handler sample_env (put_event (VStr (lit "null"))) initial_world
  = (Throw (TypeError "Cannot read property of undefined or null"),
     initial_world).
Proof.
  exact (proj2 (handler_null_body_throws sample_env (lit "null")
                  initial_world eq_refl)).
Defined.

(** The same for the event of a PUT without content, whose [body] is
    [null]: [JSON.parse] converts it to the text [null] first. *)
Example handler_absent_content_throws :
  handler sample_env (put_event VNull) initial_world
  = (Throw (TypeError "Cannot read property of undefined or null"),
     initial_world).
Proof. vm_compute. reflexivity. Qed.

(** An empty object is acknowledged. *)
Example handler_empty_object_acknowledged :
  handler sample_env (put_event (VStr (lit "{}"))) initial_world
  = (Ok tt, mkWorld 0 [] [success_response]).
Proof. vm_compute. reflexivity. Qed.

(** C7: for an event whose [httpMethod] is not the string [PUT], the
    handler calls the callback once, with status [400] and the body
    [Unsupported method "<method>"]; it reads no clock, builds no payload
    and sends nothing. *)
Theorem handler_unsupported_method (env : Env) (event method : value)
    (name : jsstring) (w : World) :
  Get event (lit "httpMethod") = Ok method ->
  is_string method (lit "PUT") = false ->
  ToString method = Ok name ->
  handler env event w
  = (Ok tt,
     add_callback
       (mkResponse (lit "400")
          (Some (lit "Unsupported method '" ++ name ++ lit "'"))
          [(lit "Content-Type", lit "application/json")])
       w).
Proof.
  intros Hget Hput Hname.
  unfold handler, bind, lift. rewrite Hget, Hput, Hname. reflexivity.
Qed.

Lemma handler_unsupported_method_witness :
  handler sample_env
    (VObj [(lit "httpMethod", VStr (lit "GET")); (lit "body", VStr (lit "{}"))])
    initial_world
  = (Ok tt,
     mkWorld 0 []
       [mkResponse (lit "400") (Some (lit "Unsupported method 'GET'"))
          [(lit "Content-Type", lit "application/json")]]).
Proof.
  exact (handler_unsupported_method sample_env
           (VObj [(lit "httpMethod", VStr (lit "GET"));
                  (lit "body", VStr (lit "{}"))])
           (VStr (lit "GET")) (lit "GET")
           initial_world eq_refl eq_refl eq_refl).
Defined.

(** C9: for an event whose [httpMethod] is [PUT] and which has no own
    [body] property, the handler leaves the world as it found it: the
    callback is not called and nothing is sent; and it returns normally
    (when the event's [hasOwnProperty] is the inherited one). *)
Theorem handler_put_without_body (env : Env) (ps : list (jsstring * value))
    (w : World) :
  lookup (lit "httpMethod") ps = Some (VStr (lit "PUT")) ->
  lookup (lit "body") ps = None ->
  snd (handler env (VObj ps) w) = w
  /\ (lookup (lit "hasOwnProperty") ps = None ->
      handler env (VObj ps) w = (Ok tt, w)).
Proof.
  intros Hm Hb. unfold handler, bind, lift, ret, Get, hasOwnProperty.
  rewrite Hm, Hb.
  change (is_string (VStr (lit "PUT")) (lit "PUT")) with true. cbv iota.
  destruct (lookup (lit "hasOwnProperty") ps); split; try reflexivity.
  discriminate.
Qed.

Lemma handler_put_without_body_witness :
  handler sample_env (VObj [(lit "httpMethod", VStr (lit "PUT"))]) initial_world
  = (Ok tt, initial_world).
Proof.
  exact (proj2 (handler_put_without_body sample_env
                  [(lit "httpMethod", VStr (lit "PUT"))]
                  initial_world eq_refl eq_refl) eq_refl).
Defined.

(* ================================================================== *)
(** * The promise of sendRequest and the completion *)
(* ================================================================== *)

Section Promise.

Variable env : Env.
Variables httpMethod requestPath payload : jsstring.
Variable w : World.

(** A response without a body resolves the promise, whatever its status. *)
Lemma sendRequest_resolves_empty_body (status : Z) (statusMessage : jsstring)
    (response_headers : value) (chunks : list jsstring) :
  handleRequest env
    (signed_request env httpMethod requestPath payload (clock env (ticks w)))
  = Responded status statusMessage response_headers chunks ->
  concat chunks = [] ->
  sendRequest env httpMethod requestPath payload w
  = (Ok (Resolved (VObj [(lit "statusCode", VNum status);
                         (lit "statusMessage", VStr statusMessage);
                         (lit "headers", response_headers)])),
     after_request env httpMethod requestPath payload w).
Proof.
  intros Hnet Hbody. unfold sendRequest, bind, Date_now, transmit.
  cbn [ticks requests callbacks]. rewrite Hnet.
  rewrite fold_left_app_concat, Hbody. reflexivity.
Qed.

(** A response whose body parses resolves the promise, whatever its
    status. *)
Lemma sendRequest_resolves_json_body (status : Z) (statusMessage : jsstring)
    (response_headers : value) (chunks : list jsstring) (parsed : value) :
  handleRequest env
    (signed_request env httpMethod requestPath payload (clock env (ticks w)))
  = Responded status statusMessage response_headers chunks ->
  concat chunks <> [] ->
  JSON_parse env (concat chunks) = Some parsed ->
  sendRequest env httpMethod requestPath payload w
  = (Ok (Resolved (VObj [(lit "statusCode", VNum status);
                         (lit "statusMessage", VStr statusMessage);
                         (lit "headers", response_headers);
                         (lit "body", parsed)])),
     after_request env httpMethod requestPath payload w).
Proof.
  intros Hnet Hbody Hparse. unfold sendRequest, bind, Date_now, transmit.
  cbn [ticks requests callbacks]. rewrite Hnet.
  rewrite fold_left_app_concat. cbn [app].
  destruct (concat chunks) as [|c body]; [now elim Hbody|].
  now rewrite Hparse.
Qed.

(** A transport error rejects the promise. *)
Lemma sendRequest_rejects (err : Error) :
  handleRequest env
    (signed_request env httpMethod requestPath payload (clock env (ticks w)))
  = Failed err ->
  sendRequest env httpMethod requestPath payload w = (Ok (Rejected err), after_request env httpMethod requestPath payload w).
Proof.
  intros Hnet. unfold sendRequest, bind, Date_now, transmit.
  cbn [ticks requests callbacks]. now rewrite Hnet.
Qed.

(** C4, the code at the failing input: when the response (of whatever
    status) carries a body that [JSON.parse] rejects, the exception leaves
    the [end] listener uncaught, the promise is never settled, and neither
    handler passed to [then] runs: the callback is not called. *)
Theorem sendRequest_unparsable_body_never_settles (status : Z)
    (statusMessage : jsstring) (response_headers : value)
    (chunks : list jsstring) (handlers : settled -> M unit) :
  handleRequest env
    (signed_request env httpMethod requestPath payload (clock env (ticks w)))
  = Responded status statusMessage response_headers chunks ->
  concat chunks <> [] ->
  JSON_parse env (concat chunks) = None ->
  bind (sendRequest env httpMethod requestPath payload) handlers w
  = (Throw (SyntaxError "Unexpected token in JSON"),
     after_request env httpMethod requestPath payload w)
  /\ callbacks (after_request env httpMethod requestPath payload w)
     = callbacks w.
Proof.
  intros Hnet Hbody Hparse. split; [|reflexivity].
  unfold sendRequest, bind, Date_now, transmit.
  cbn [ticks requests callbacks]. rewrite Hnet.
  rewrite fold_left_app_concat. cbn [app].
  destruct (concat chunks) as [|c body]; [now elim Hbody|].
  now rewrite Hparse.
Qed.

End Promise.

Lemma sendRequest_unparsable_body_never_settles_witness :
  sendNotifications bad_gateway_env (VArr []) done initial_world
  = (Throw (SyntaxError "Unexpected token in JSON"),
     mkWorld 1
       [signed_request bad_gateway_env (lit "POST") (lit "/_bulk") []
          (clock bad_gateway_env 0)]
       []).
Proof.
  refine (proj1 (sendRequest_unparsable_body_never_settles bad_gateway_env
                   (lit "POST") (lit "/_bulk") [] initial_world
                   502 (lit "Bad Gateway") (VObj [])
                   [lit "<html><body>502 Bad Gateway</body></html>"]
                   (report done) eq_refl _ eq_refl)).
  discriminate.
Defined.

(** The same on a batch of one notification: the request goes out, the
    engine's gateway answers [502] with an HTML page, and the invocation
    ends with an uncaught SyntaxError and no call of the callback. *)
Example bad_gateway_notification :
  fst (sendNotifications bad_gateway_env (VArr [node1_notification]) done
         initial_world)
  = Throw (SyntaxError "Unexpected token in JSON")
  /\ callbacks (snd (sendNotifications bad_gateway_env
                       (VArr [node1_notification]) done initial_world)) = []
  /\ length (requests (snd (sendNotifications bad_gateway_env
                       (VArr [node1_notification]) done initial_world))) = 1%nat.
Proof. repeat split; vm_compute; reflexivity. Qed.

Lemma report_resolved (data : value) (w : World) :
  report done (Resolved data) w = (Ok tt, add_callback success_response w).
Proof. reflexivity. Qed.

Lemma report_rejected (err : Error) (w : World) :
  report done (Rejected err) w = (Ok tt, add_callback (failure_response err) w).
Proof. reflexivity. Qed.

(** A transport error reaches the callback as status [400] with the
    error's message, from each of the three send functions. *)
Lemma transport_error_reported (env : Env) (bulk : jsstring) (err : Error)
    (w : World) :
  handleRequest env
    (signed_request env (lit "POST") (lit "/_bulk") bulk (clock env (ticks w)))
  = Failed err ->
  callbacks (snd (bind (sendRequest env (lit "POST") (lit "/_bulk") bulk)
                    (report done) w))
  = callbacks w ++ [failure_response err].
Proof.
  intros Hnet. unfold bind.
  rewrite (sendRequest_rejects env _ _ _ w err Hnet). reflexivity.
Qed.

(** C10: once the promise of the engine request is resolved, each of the
    three send functions drops the resolved value and calls
    [done(null, 'success')]: the callback gets status [200] and, as body,
    the JSON text of the string [success], whatever the engine answered. *)
Theorem send_functions_report_success (env : Env) (batch : value)
    (bulk : jsstring) (data : value) (w w1 w2 : World) :
  sendRequest env (lit "POST") (lit "/_bulk") bulk w1 = (Ok (Resolved data), w2) ->
  let response :=
    mkResponse (lit "200") (Some (lit "'success'"))
      [(lit "Content-Type", lit "application/json")] in
  (notifications_bulk env batch w = (Ok bulk, w1) ->
   sendNotifications env batch done w = (Ok tt, add_callback response w2))
  /\ (registrations_bulk env batch w = (Ok bulk, w1) ->
      sendRegistrations env batch done w = (Ok tt, add_callback response w2))
  /\ (expirations_bulk env batch w = (Ok bulk, w1) ->
      sendExpirations env batch done w = (Ok tt, add_callback response w2))
  /\ JSON_stringify (VStr (lit "success")) = Some (lit "'success'").
Proof.
  intros Hsend response. repeat split; intros Hbulk.
  - unfold sendNotifications, bind. now rewrite Hbulk, Hsend.
  - unfold sendRegistrations, bind. now rewrite Hbulk, Hsend.
  - unfold sendExpirations, bind. now rewrite Hbulk, Hsend.
Qed.

Lemma send_functions_report_success_witness :
  sendRequest sample_env (lit "POST") (lit "/_bulk") [] initial_world
  = (Ok (Resolved (VObj [(lit "statusCode", VNum 200);
                         (lit "statusMessage", VStr (lit "OK"));
                         (lit "headers", VObj [])])),
     mkWorld 1 [signed_request sample_env (lit "POST") (lit "/_bulk") []
                  (clock sample_env 0)] [])
  /\ notifications_bulk sample_env (VArr []) initial_world
     = (Ok [], initial_world)
  /\ sendNotifications sample_env (VArr []) done initial_world
     = (Ok tt,
        mkWorld 1 [signed_request sample_env (lit "POST") (lit "/_bulk") []
                     (clock sample_env 0)] [success_response]).
Proof.
  split; [reflexivity|]. split; [reflexivity|].
  exact (proj1 (send_functions_report_success sample_env (VArr []) []
                  (VObj [(lit "statusCode", VNum 200);
                         (lit "statusMessage", VStr (lit "OK"));
                         (lit "headers", VObj [])])
                  initial_world initial_world
                  (mkWorld 1 [signed_request sample_env (lit "POST")
                                (lit "/_bulk") [] (clock sample_env 0)] [])
                  eq_refl) eq_refl).
Defined.

(* ================================================================== *)
(** * Effects of an invocation *)
(* ================================================================== *)

Lemma only_ticks_lift (A : Type) (r : result A) : only_ticks (lift r).
Proof. intros w. split; reflexivity. Qed.

Lemma only_ticks_ret (A : Type) (a : A) : only_ticks (ret a).
Proof. intros w. split; reflexivity. Qed.

Lemma only_ticks_Date_now (env : Env) : only_ticks (Date_now env).
Proof. intros w. split; reflexivity. Qed.

Lemma only_ticks_bind (A B : Type) (c : M A) (k : A -> M B) :
  only_ticks c -> (forall a, only_ticks (k a)) -> only_ticks (bind c k).
Proof.
  intros Hc Hk w. unfold bind. destruct (Hc w) as [H1 H2].
  destruct (c w) as [[a|e] w1]; cbn [snd] in *.
  - destruct (Hk a w1) as [H3 H4]. split; congruence.
  - split; assumption.
Qed.

Lemma only_ticks_for_of (A : Type) (step : A -> value -> M A)
    (items : list value) :
  (forall acc item, only_ticks (step acc item)) ->
  forall acc, only_ticks (for_of items step acc).
Proof.
  intros Hstep. induction items as [|item r IH]; intros acc; cbn [for_of].
  - apply only_ticks_ret.
  - apply only_ticks_bind; [apply Hstep | exact IH].
Qed.

Ltac only_ticks :=
  repeat first
    [ apply only_ticks_lift | apply only_ticks_ret | apply only_ticks_Date_now
    | apply only_ticks_for_of; intros
    | apply only_ticks_bind; [|intros] ].

Lemma only_ticks_notifications_bulk (env : Env) (batch : value) :
  only_ticks (notifications_bulk env batch).
Proof. unfold notifications_bulk, notification_step. only_ticks. Qed.

Lemma only_ticks_registrations_bulk (env : Env) (batch : value) :
  only_ticks (registrations_bulk env batch).
Proof. unfold registrations_bulk, registration_step. only_ticks. Qed.

Lemma only_ticks_expirations_bulk (env : Env) (batch : value) :
  only_ticks (expirations_bulk env batch).
Proof. unfold expirations_bulk, expiration_step. only_ticks. Qed.

(** Building a payload, sending it and reporting: either the builder
    throws and nothing happens, or one request goes out and then the
    callback is called once, or the invocation ends in an exception, or the
    promise stays pending and nothing more happens. *)
Lemma send_effects (env : Env) (builder : M jsstring) (w : World) :
  only_ticks builder ->
  let c := bind builder (fun bulk =>
             bind (sendRequest env (lit "POST") (lit "/_bulk") bulk)
               (report done)) in
  bounded_effects c w
  /\ ((forall request, handleRequest env request <> Unanswered) ->
      answers_once c w).
Proof.
  intros Hb c. subst c. unfold bounded_effects, answers_once, adds, bind.
  destruct (Hb w) as [H1 H2].
  destruct (builder w) as [[bulk|e] w1]; cbn [snd fst] in *.
  - pose proof (sendRequest_world env (lit "POST") (lit "/_bulk") bulk w1) as Hw.
    assert (Hp : fst (sendRequest env (lit "POST") (lit "/_bulk") bulk w1)
                 = Ok Pending ->
                 handleRequest env
                   (signed_request env (lit "POST") (lit "/_bulk") bulk
                      (clock env (ticks w1))) = Unanswered).
    { unfold sendRequest, bind, Date_now, transmit, ret, throw.
      cbn [ticks requests callbacks].
      destruct (handleRequest env _) as [st sm hs chunks|err|];
        [|discriminate|reflexivity].
      match goal with
      | |- context [match ?body with [] => _ | _ :: _ => _ end] =>
          destruct body
      end; [discriminate|].
      destruct (JSON_parse env _); discriminate. }
    destruct (sendRequest env (lit "POST") (lit "/_bulk") bulk w1)
      as [[p|e] w2]; cbn [snd fst] in Hw, Hp; subst w2.
    + split.
      * exists [signed_request env (lit "POST") (lit "/_bulk") bulk
                  (clock env (ticks w1))].
        destruct p as [data|err|];
          cbn [report done callback ret snd fst requests callbacks];
          rewrite H1, H2; eexists;
          (split; [split; [reflexivity|]|]);
          try reflexivity; try (symmetry; apply app_nil_r);
          repeat split; cbn; auto; discriminate.
      * intros Hnet a _. destruct p as [data|err|];
          cbn [report done callback snd fst requests callbacks].
        -- rewrite H2. eexists. reflexivity.
        -- rewrite H2. eexists. reflexivity.
        -- elim (Hnet _ (Hp eq_refl)).
    + split.
      * exists [signed_request env (lit "POST") (lit "/_bulk") bulk
                  (clock env (ticks w1))], [].
        cbn [snd fst requests callbacks]. rewrite H1, H2, app_nil_r.
        repeat split; cbn; auto.
      * discriminate.
  - split; [|discriminate].
    exists [], []. rewrite H1, H2, !app_nil_r. repeat split; cbn; auto.
Qed.

Lemma done_effects (err : option Error) (res : value) (w : World) :
  bounded_effects (done err res) w /\ answers_once (done err res) w.
Proof.
  unfold bounded_effects, answers_once, adds, done, callback.
  cbn [snd fst requests callbacks]. split.
  - exists []. eexists. rewrite app_nil_r.
    split; [split; reflexivity|]. repeat split; cbn; auto; discriminate.
  - intros a _. eexists. reflexivity.
Qed.

Lemma throw_effects (A : Type) (c : M A) (e : exn) (w : World) :
  c w = (Throw e, w) -> bounded_effects c w /\ answers_once c w.
Proof.
  intros H. unfold bounded_effects, answers_once, adds. rewrite H.
  cbn [snd fst]. split; [|discriminate].
  exists [], []. rewrite !app_nil_r. repeat split; cbn; auto.
Qed.

(** The dispatch of a parsed body: at most one request, at most one call
    of the callback, none when it throws, and exactly one when it returns
    and the HTTP client has settled the request. *)
Lemma dispatch_effects (env : Env) (body : value) (w : World) :
  bounded_effects (dispatch env body) w
  /\ ((forall request, handleRequest env request <> Unanswered) ->
      answers_once (dispatch env body) w).
Proof.
  unfold bounded_effects, answers_once, adds.
  rewrite dispatch_classify.
  destruct (classify body) as [[batch|batch|batch|]|e].
  - exact (send_effects env (notifications_bulk env batch) w
             (only_ticks_notifications_bulk env batch)).
  - exact (send_effects env (registrations_bulk env batch) w
             (only_ticks_registrations_bulk env batch)).
  - exact (send_effects env (expirations_bulk env batch) w
             (only_ticks_expirations_bulk env batch)).
  - split; [apply done_effects | intros _; apply done_effects].
  - split; [|intros _];
      apply (throw_effects unit (fun w => (Throw e, w)) e w eq_refl).
Qed.

(** The handler on an object event, case by case. *)
Lemma handler_cases (env : Env) (ps : list (jsstring * value)) (w : World) :
  (exists e, handler env (VObj ps) w = (Throw e, w))
  \/ (lookup (lit "body") ps = None /\ handler env (VObj ps) w = (Ok tt, w))
  \/ (exists body, handler env (VObj ps) w = dispatch env body w)
  \/ (exists err, handler env (VObj ps) w = done (Some err) VUndefined w).
Proof.
  unfold handler, bind, lift, ret, parse, Get, hasOwnProperty.
  destruct (is_string _ (lit "PUT")).
  - destruct (lookup (lit "hasOwnProperty") ps); [left; eauto|].
    destruct (lookup (lit "body") ps) as [text|]; [|right; left; auto].
    unfold bind, lift, throw, ret.
    destruct (ToString text) as [s|e]; [|left; eauto].
    destruct (JSON_parse env s) as [body|]; [|left; eauto].
    right; right; left. eauto.
  - destruct (ToString _) as [name|e]; [|left; eauto].
    right; right; right. eauto.
Qed.

Lemma handler_effects (env : Env) (event : value) (w : World) :
  bounded_effects (handler env event) w.
Proof.
  assert (Hquiet : forall r : result unit,
            handler env event w = (r, w) ->
            bounded_effects (handler env event) w).
  { intros r H. unfold bounded_effects, adds. rewrite H. cbn [snd fst].
    exists [], []. rewrite !app_nil_r. repeat split; cbn; auto. }
  destruct event as [| |b|n|neg ds pt|s|l|ps];
    try (apply (Hquiet (Throw (TypeError
                  "Cannot read property of undefined or null")));
         reflexivity).
  1-5: unfold bounded_effects, adds;
       change (handler env _ w)
         with (done (Some (mkError (lit "Unsupported method 'undefined'")))
                 VUndefined w);
       apply done_effects.
  destruct (handler_cases env ps w)
    as [[e H]|[[_ H]|[[body H]|[err H]]]].
  - apply (Hquiet _ H).
  - apply (Hquiet _ H).
  - unfold bounded_effects, adds. rewrite H. apply dispatch_effects.
  - unfold bounded_effects, adds. rewrite H. apply done_effects.
Qed.

(** X1: whatever the event, the parsed body and the network do, one
    invocation of the handler hands at most one request to the HTTP client
    and calls the Lambda callback at most once; and when the handler ends in
    an uncaught exception it has not called the callback. *)
Theorem handler_at_most_one_request_and_response (env : Env) (event : value)
    (w : World) :
  exists rs cs,
    requests (snd (handler env event w)) = requests w ++ rs
    /\ callbacks (snd (handler env event w)) = callbacks w ++ cs
    /\ (length rs <= 1)%nat
    /\ (length cs <= 1)%nat
    /\ (forall e, fst (handler env event w) = Throw e -> cs = []).
Proof.
  destruct (handler_effects env event w) as (rs & cs & [H1 H2] & H3 & H4 & H5).
  exists rs, cs. auto.
Qed.



(** A request that is never answered: the send function returns after
    one request, and the callback is not called. *)
Example unanswered_request_is_silent :
  sendExpirations (env_with (JSON_parse sample_env) (fun _ => Unanswered))
    (VArr [VStr (lit "node1")]) done initial_world
  = (Ok tt,
     mkWorld 2
       [signed_request sample_env (lit "POST") (lit "/_bulk")
          (unlines [lit "{'index':{'_index':'registrations','_type':'_doc'}}";
                    lit "{'time':1546300800000,'endpoint':'node1','value':0}"])
          1546300800001]
       []).
Proof. vm_compute. reflexivity. Qed.

(* ================================================================== *)
(** * Failures of the network and of the batch *)
(* ================================================================== *)

Lemma send_after_bulk (env : Env) (bulk : jsstring) (w1 : World)
    (outcome : result unit * World) :
  bind (sendRequest env (lit "POST") (lit "/_bulk") bulk) (report done) w1
  = outcome ->
  forall batch w,
    (notifications_bulk env batch w = (Ok bulk, w1) ->
     sendNotifications env batch done w = outcome)
    /\ (registrations_bulk env batch w = (Ok bulk, w1) ->
        sendRegistrations env batch done w = outcome)
    /\ (expirations_bulk env batch w = (Ok bulk, w1) ->
        sendExpirations env batch done w = outcome).
Proof.
  intros Hsend batch w. repeat split; intros Hbulk.
  - unfold sendNotifications, bind at 1. now rewrite Hbulk.
  - unfold sendRegistrations, bind at 1. now rewrite Hbulk.
  - unfold sendExpirations, bind at 1. now rewrite Hbulk.
Qed.

(** X3: when the HTTP client reports a transport error for the bulk
    request, each of the three send functions calls [done] with that error:
    the callback gets status [400] and the error's message as body, after
    exactly one request. *)
Theorem transport_error_answers_400 (env : Env) (batch : value)
    (bulk : jsstring) (err : Error) (w w1 : World) :
  handleRequest env
    (signed_request env (lit "POST") (lit "/_bulk") bulk (clock env (ticks w1)))
  = Failed err ->
  let answered :=
    add_callback
      (mkResponse (lit "400") (Some (message err))
         [(lit "Content-Type", lit "application/json")])
      (after_request env (lit "POST") (lit "/_bulk") bulk w1) in
  (notifications_bulk env batch w = (Ok bulk, w1) ->
   sendNotifications env batch done w = (Ok tt, answered))
  /\ (registrations_bulk env batch w = (Ok bulk, w1) ->
      sendRegistrations env batch done w = (Ok tt, answered))
  /\ (expirations_bulk env batch w = (Ok bulk, w1) ->
      sendExpirations env batch done w = (Ok tt, answered)).
Proof.
  intros Hnet answered. apply send_after_bulk. unfold bind.
  now rewrite (sendRequest_rejects env _ _ _ w1 err Hnet).
Qed.

Lemma transport_error_answers_400_witness :
  sendExpirations (env_with (JSON_parse sample_env)
                     (fun _ => Failed connection_refused))
    (VArr []) done initial_world
  = (Ok tt,
     mkWorld 1
       [signed_request sample_env (lit "POST") (lit "/_bulk") []
          (clock sample_env 0)]
       [mkResponse (lit "400") (Some (lit "connect ECONNREFUSED 10.0.0.1:443"))
          [(lit "Content-Type", lit "application/json")]]).
Proof.
  exact (proj2 (proj2 (transport_error_answers_400
                         (env_with (JSON_parse sample_env)
                            (fun _ => Failed connection_refused))
                         (VArr []) [] connection_refused
                         initial_world initial_world eq_refl))
           eq_refl).
Defined.

(** X4: a batch that is neither an array nor a string is not iterable:
    each send function throws a TypeError at its [for ... of], before any
    clock reading; nothing is sent and the callback is not called. *)
Theorem non_iterable_batch_throws (env : Env) (batch : value) (w : World) :
  match batch with
  | VArr _ | VStr _ => False
  | _ => True
  end ->
  sendNotifications env batch done w
  = (Throw (TypeError "value is not iterable"), w)
  /\ sendRegistrations env batch done w
     = (Throw (TypeError "value is not iterable"), w)
  /\ sendExpirations env batch done w
     = (Throw (TypeError "value is not iterable"), w).
Proof.
  intros H. destruct batch; try contradiction; repeat split; reflexivity.
Qed.

Lemma non_iterable_batch_throws_witness :
  sendRegistrations sample_env (VObj [(lit "ep", VStr (lit "node1"))]) done
    initial_world
  = (Throw (TypeError "value is not iterable"), initial_world).
Proof.
  exact (proj1 (proj2 (non_iterable_batch_throws sample_env
                         (VObj [(lit "ep", VStr (lit "node1"))])
                         initial_world I))).
Defined.

Lemma for_of_app (A : Type) (step : A -> value -> M A)
    (front back : list value) :
  forall acc w,
    for_of (front ++ back) step acc w
    = bind (for_of front step acc) (for_of back step) w.
Proof.
  induction front as [|item r IH]; intros acc w; [reflexivity|].
  cbn [app for_of]. unfold bind.
  destruct (step acc item w) as [[acc'|e] w1]; [|reflexivity].
  rewrite IH. reflexivity.
Qed.

(** X5: one [null] item aborts the whole batch: the lines built for the
    items before it are dropped, nothing is sent and the callback is not
    called.  [sendNotifications] throws when it reads [item.payload];
    [sendRegistrations] has read the clock once more before it throws at
    [item.ep]. *)
Theorem null_item_aborts_batch (env : Env)
    (front : list (list (jsstring * value))) (back : list value) (w : World) :
  Forall has_string_payload front ->
  sendNotifications env (VArr (map VObj front ++ VNull :: back)) done w
  = (Throw (TypeError "Cannot read property of undefined or null"),
     tick (length front) w)
  /\ sendRegistrations env (VArr (map VObj front ++ VNull :: back)) done w
     = (Throw (TypeError "Cannot read property of undefined or null"),
        tick (2 * length front + 1) w).
Proof.
  intros Hall. split.
  - unfold sendNotifications, notifications_bulk, bind at 1 2, lift, iterate.
    rewrite for_of_app. unfold bind at 1.
    rewrite (notifications_loop env front Hall). reflexivity.
  - unfold sendRegistrations, registrations_bulk, bind at 1 2, lift, iterate.
    rewrite for_of_app. unfold bind at 1.
    rewrite (registrations_loop env front).
    cbn [for_of]. unfold bind at 1.
    unfold registration_step, bind, Date_now, lift, Get.
    cbn [ticks requests callbacks tick]. unfold tick.
    cbn [ticks requests callbacks]. do 2 f_equal. lia.
Qed.

Lemma null_item_aborts_batch_witness :
  sendNotifications sample_env
    (VArr [VObj notification_without_ep; VNull; node1_notification]) done
    initial_world
  = (Throw (TypeError "Cannot read property of undefined or null"),
     tick 1 initial_world).
Proof.
  refine (proj1 (null_item_aborts_batch sample_env [notification_without_ep]
                   [node1_notification] initial_world _)).
  constructor; [|constructor]. exists (lit "SGVsbG8="). reflexivity.
Defined.

(* ================================================================== *)
(** * Batches of any shape *)
(* ================================================================== *)

Lemma expiration_lines_pairs (clock : nat -> Z) (items : list value) :
  forall t,
    exists docs,
      length docs = length items
      /\ expiration_lines clock t items
         = flat_map (fun d => [action_text "registrations"; d]) docs.
Proof.
  induction items as [|item r IH]; intros t.
  - exists []. split; reflexivity.
  - destruct (IH (S t)) as (docs & Hlen & Hlines).
    exists (stringify_text (expiration_record (clock t) item) :: docs).
    split; [cbn; now rewrite Hlen|].
    cbn [expiration_lines flat_map app]. now rewrite Hlines.
Qed.

(** X6: [sendExpirations] reads no property of its items, so on an array
    of any items it never throws while it builds the payload: it reads the
    clock once per item, builds exactly two complete lines per item, the
    first of each pair the [registrations] action line, and hands them to
    the HTTP client in one request. *)
Theorem sendExpirations_any_array (env : Env) (items : list value) (w : World) :
  exists bulk docs,
    expirations_bulk env (VArr items) w = (Ok bulk, tick (length items) w)
    /\ length docs = length items
    /\ split_lines bulk
       = (flat_map (fun d => [action_text "registrations"; d]) docs, [])
    /\ requests (snd (sendExpirations env (VArr items) done w))
       = requests w
         ++ [signed_request env (lit "POST") (lit "/_bulk") bulk
               (clock env (length items + ticks w))].
Proof.
  assert (Hbulk : expirations_bulk env (VArr items) w
                  = (Ok (unlines (expiration_lines (clock env) (ticks w) items)),
                     tick (length items) w)).
  { unfold expirations_bulk, bind, lift, iterate.
    now rewrite expirations_loop. }
  destruct (expiration_lines_pairs (clock env) items (ticks w))
    as (docs & Hlen & Hlines).
  eexists. exists docs. split; [exact Hbulk|]. split; [exact Hlen|]. split.
  - rewrite <- Hlines. apply split_lines_unlines, expiration_lines_no_LF.
  - unfold sendExpirations, bind at 1. rewrite Hbulk.
    exact (send_requests env _ (tick (length items) w)).
Qed.

Lemma code_points_units (s : jsstring) :
  no_high_surrogate s -> code_points s = map (fun c => [c]) s.
Proof.
  induction 1 as [|c r Hc _ IH]; [reflexivity|].
  destruct r as [|d r']; [reflexivity|].
  cbn [code_points map] in *. now rewrite Hc, IH.
Qed.

(** X7: a string where an array is expected is iterated by code point:
    [sendExpirations] on a string without surrogates builds one
    [registrations] document per character, the character as [endpoint]. *)
Theorem sendExpirations_string_batch (env : Env) (s : jsstring) (w : World) :
  no_high_surrogate s ->
  exists bulk,
    expirations_bulk env (VStr s) w = (Ok bulk, tick (length s) w)
    /\ split_lines bulk
       = (expiration_bulk (clock env) (ticks w) (map (fun c => [c]) s), []).
Proof.
  intros Hs.
  assert (Hbulk : expirations_bulk env (VStr s) w
                  = (Ok (unlines (expiration_lines (clock env) (ticks w)
                                    (map VStr (map (fun c => [c]) s)))),
                     tick (length s) w)).
  { unfold expirations_bulk, bind, lift, iterate.
    rewrite (code_points_units s Hs), expirations_loop.
    now rewrite !length_map. }
  eexists. split; [exact Hbulk|].
  rewrite <- valid_expirations.
  apply split_lines_unlines, expiration_lines_no_LF.
Qed.

Lemma sendExpirations_string_batch_witness :
  exists bulk,
    expirations_bulk sample_env (VStr (lit "ab")) initial_world
    = (Ok bulk, tick 2 initial_world)
    /\ split_lines bulk
       = ([lit "{'index':{'_index':'registrations','_type':'_doc'}}";
           lit "{'time':1546300800000,'endpoint':'a','value':0}";
           lit "{'index':{'_index':'registrations','_type':'_doc'}}";
           lit "{'time':1546300800001,'endpoint':'b','value':0}"], []).
Proof.
  refine (sendExpirations_string_batch sample_env (lit "ab") initial_world _).
  repeat constructor.
Defined.

Lemma toString_ascii_mod (bytes : list Z) :
  toString_ascii bytes = map (fun b => b mod 128) bytes.
Proof.
  unfold toString_ascii. apply map_ext. intros b.
  change 127 with (Z.ones 7). now rewrite Z.land_ones by lia.
Qed.

(** X8: the round trip of a notification's value: when [payload] is the
    base64 encoding of a sequence of bytes, the document's [value] is that
    sequence with every byte reduced modulo 128: ascii text comes back
    unchanged, and a byte from 128 on comes back without its high bit. *)
Theorem notification_value_round_trip (env : Env) (bulk : jsstring)
    (ps : list (jsstring * value)) (bytes : list Z) (w : World) :
  lookup (lit "payload") ps = Some (VStr (base64_encode bytes)) ->
  Forall (fun b => 0 <= b < 256) bytes ->
  notification_step env bulk (VObj ps) w
  = (Ok (bulk ++ unlines
           [action_text "notifications";
            stringify_text
              (VObj [(lit "time", VNum (clock env (ticks w)));
                     (lit "endpoint", field (lit "ep") ps);
                     (lit "path", field (lit "path") ps);
                     (lit "value", VStr (map (fun b => b mod 128) bytes))])]),
     tick 1 w).
Proof.
  intros Hp Hbytes.
  rewrite notification_step_obj by (eexists; exact Hp).
  unfold notification_record, text_field. rewrite Hp.
  now rewrite (base64_decode_encode bytes Hbytes), toString_ascii_mod.
Qed.

Lemma notification_value_round_trip_witness :
  notification_step sample_env []
    (VObj [(lit "ep", VStr (lit "node1"));
           (lit "payload", VStr (base64_encode [72; 233; 33]))])
    initial_world
  = (Ok (unlines
           [lit "{'index':{'_index':'notifications','_type':'_doc'}}";
            lit "{'time':1546300800000,'endpoint':'node1','value':'Hi!'}"]),
     tick 1 initial_world).
Proof.
  refine (notification_value_round_trip sample_env []
            [(lit "ep", VStr (lit "node1"));
             (lit "payload", VStr (base64_encode [72; 233; 33]))]
            [72; 233; 33] initial_world eq_refl _).
  repeat constructor; lia.
Defined.

Lemma Ok_fst_inj (A : Type) (a b : A) (w w' : World) :
  (Ok a, w) = (Ok b, w') -> a = b.
Proof. intros H. now injection H. Qed.

(** One pass of each loop that does not throw appends an action line and
    a document, and no line feed inside either. *)
Lemma notification_step_lines (env : Env) (bulk bulk' : jsstring)
    (item : value) (w w' : World) :
  notification_step env bulk item w = (Ok bulk', w') ->
  exists doc,
    bulk' = bulk ++ unlines [action_text "notifications"; doc]
    /\ no_LF doc = true.
Proof.
  unfold notification_step, bind, lift, ret, Date_now.
  destruct (Get item (lit "payload")) as [p|e]; [|discriminate].
  destruct (Buffer_from_base64 env p) as [buffer|e]; [|discriminate].
  destruct (Get item (lit "ep")) as [ep'|e]; [|discriminate].
  destruct (Get item (lit "path")) as [path'|e]; [|discriminate].
  rewrite document_line_obj. intros H. apply Ok_fst_inj in H. subst bulk'.
  match goal with
  | |- context [stringify_text ?v] => exists (stringify_text v)
  end.
  split; [|apply stringify_text_no_LF].
  cbn [unlines]. rewrite <- !app_assoc. reflexivity.
Qed.

Lemma registration_step_lines (env : Env) (bulk bulk' : jsstring)
    (item : value) (w w' : World) :
  registration_step env bulk item w = (Ok bulk', w') ->
  exists device registration,
    bulk' = bulk ++ unlines [action_text "devices"; device;
                             action_text "registrations"; registration]
    /\ no_LF device = true /\ no_LF registration = true.
Proof.
  unfold registration_step, bind, lift, ret, Date_now.
  destruct (Get item (lit "ep")) as [ep'|e]; [|discriminate].
  destruct (Get item (lit "original-ep")) as [o|e]; [|discriminate].
  destruct (Get item (lit "ept")) as [t|e]; [|discriminate].
  destruct (Get item (lit "resources")) as [r|e]; [|discriminate].
  rewrite !document_line_obj. intros H. apply Ok_fst_inj in H. subst bulk'.
  exists (stringify_text
            (VObj [(lit "time", VNum (clock env (ticks w)));
                   (lit "endpoint", ep');
                   (lit "original-ep", o);
                   (lit "ept", t);
                   (lit "resources", match JSON_stringify r with
                                     | Some s => VStr s
                                     | None => VUndefined
                                     end)])),
         (stringify_text
            (VObj [(lit "time", VNum (clock env (S (ticks w))));
                   (lit "endpoint", ep');
                   (lit "value", VNum 1)])).
  split; [|split; apply stringify_text_no_LF].
  cbn [unlines]. rewrite <- !app_assoc. reflexivity.
Qed.

Lemma notification_loop_lines (env : Env) (items : list value) :
  forall bulk bulk' w w',
    for_of items (notification_step env) bulk w = (Ok bulk', w') ->
    exists docs,
      length docs = length items
      /\ Forall (fun d => no_LF d = true) docs
      /\ bulk' = bulk ++ unlines (flat_map (fun d =>
                   [action_text "notifications"; d]) docs).
Proof.
  induction items as [|item r IH]; intros bulk bulk' w w' H.
  - injection H as <- _. exists []. cbn. now rewrite app_nil_r.
  - cbn [for_of] in H. unfold bind in H.
    destruct (notification_step env bulk item w) as [[b1|e] w1] eqn:Hs;
      [|discriminate].
    destruct (notification_step_lines env _ _ _ _ _ Hs) as (d & -> & Hd).
    destruct (IH _ _ _ _ H) as (docs & Hlen & Hall & ->).
    exists (d :: docs). split; [cbn; now rewrite Hlen|].
    split; [now constructor|].
    cbn [flat_map unlines app]. norm_app. reflexivity.
Qed.

Lemma registration_loop_lines (env : Env) (items : list value) :
  forall bulk bulk' w w',
    for_of items (registration_step env) bulk w = (Ok bulk', w') ->
    exists docs,
      length docs = length items
      /\ Forall (fun d => no_LF (fst d) = true /\ no_LF (snd d) = true) docs
      /\ bulk' = bulk ++ unlines (flat_map (fun d =>
                   [action_text "devices"; fst d;
                    action_text "registrations"; snd d]) docs).
Proof.
  induction items as [|item r IH]; intros bulk bulk' w w' H.
  - injection H as <- _. exists []. cbn. now rewrite app_nil_r.
  - cbn [for_of] in H. unfold bind in H.
    destruct (registration_step env bulk item w) as [[b1|e] w1] eqn:Hs;
      [|discriminate].
    destruct (registration_step_lines env _ _ _ _ _ Hs)
      as (d1 & d2 & -> & Hd1 & Hd2).
    destruct (IH _ _ _ _ H) as (docs & Hlen & Hall & ->).
    exists ((d1, d2) :: docs). split; [cbn; now rewrite Hlen|].
    split; [constructor; auto|].
    cbn [flat_map unlines app fst snd]. norm_app. reflexivity.
Qed.

Lemma flat_map_lines_no_LF (A : Type) (f : A -> list jsstring) (l : list A) :
  Forall (fun a => Forall (fun s => no_LF s = true) (f a)) l ->
  Forall (fun s => no_LF s = true) (flat_map f l).
Proof.
  induction 1 as [|a r Ha _ IH]; cbn [flat_map]; [constructor|].
  apply Forall_app. auto.
Qed.

(** X9: no input breaks the line structure of a payload.  Whatever the
    items of the batch are, when the loop of [sendNotifications] ends
    without an exception the payload consists of exactly two complete
    lines per item, the first of each pair the [notifications] action line;
    for [sendRegistrations] it is four lines per item, with the [devices]
    and [registrations] action lines in first and third place. *)
Theorem payload_is_whole_lines (env : Env) (batch : value)
    (items : list value) (bulk : jsstring) (w w' : World) :
  iterate batch = Ok items ->
  (notifications_bulk env batch w = (Ok bulk, w') ->
   exists docs,
     length docs = length items
     /\ split_lines bulk
        = (flat_map (fun d => [action_text "notifications"; d]) docs, []))
  /\ (registrations_bulk env batch w = (Ok bulk, w') ->
      exists docs,
        length docs = length items
        /\ split_lines bulk
           = (flat_map (fun d => [action_text "devices"; fst d;
                                  action_text "registrations"; snd d]) docs,
              [])).
Proof.
  intros Hit. split; intros H.
  - unfold notifications_bulk, bind, lift in H. rewrite Hit in H.
    destruct (notification_loop_lines env items _ _ _ _ H)
      as (docs & Hlen & Hall & ->).
    exists docs. split; [exact Hlen|]. cbn [app].
    apply split_lines_unlines, flat_map_lines_no_LF.
    eapply Forall_impl; [|exact Hall]. cbv beta. intros d Hd.
    repeat constructor; auto.
  - unfold registrations_bulk, bind, lift in H. rewrite Hit in H.
    destruct (registration_loop_lines env items _ _ _ _ H)
      as (docs & Hlen & Hall & ->).
    exists docs. split; [exact Hlen|]. cbn [app].
    apply split_lines_unlines, flat_map_lines_no_LF.
    eapply Forall_impl; [|exact Hall]. cbv beta. intros d [Hd1 Hd2].
    repeat constructor; auto.
Qed.

Lemma payload_is_whole_lines_witness :
  exists docs,
    length docs = 2%nat
    /\ split_lines
         (unlines [lit "{'index':{'_index':'devices','_type':'_doc'}}";
                   lit "{'time':1546300800000}";
                   lit "{'index':{'_index':'registrations','_type':'_doc'}}";
                   lit "{'time':1546300800001,'value':1}";
                   lit "{'index':{'_index':'devices','_type':'_doc'}}";
                   lit "{'time':1546300800002}";
                   lit "{'index':{'_index':'registrations','_type':'_doc'}}";
                   lit "{'time':1546300800003,'value':1}"])
       = (flat_map (fun d => [action_text "devices"; fst d;
                              action_text "registrations"; snd d]) docs,
          []).
Proof.
  exact (proj2 (payload_is_whole_lines sample_env
                  (VArr [VNum 7; VStr (lit "node1")])
                  [VNum 7; VStr (lit "node1")] _
                  initial_world (tick 4 initial_world) eq_refl)
           eq_refl).
Defined.

(* ================================================================== *)
(** * The handler, branch by branch *)
(* ================================================================== *)

(** X10: the dispatch takes the first key the body has, in the order
    [notifications], [registrations], [reg-updates],
    [registrations-expired], and hands that key's value to its send
    function; the keys after it are not read, so what they hold is not
    stored. *)
Theorem dispatch_takes_first_key (env : Env) (ps : list (jsstring * value))
    (w : World) :
  lookup (lit "hasOwnProperty") ps = None ->
  (forall batch,
     lookup (lit "notifications") ps = Some batch ->
     dispatch env (VObj ps) w = sendNotifications env batch done w)
  /\ (forall batch,
        lookup (lit "notifications") ps = None ->
        lookup (lit "registrations") ps = Some batch ->
        dispatch env (VObj ps) w = sendRegistrations env batch done w)
  /\ (forall batch,
        lookup (lit "notifications") ps = None ->
        lookup (lit "registrations") ps = None ->
        lookup (lit "reg-updates") ps = Some batch ->
        dispatch env (VObj ps) w = sendRegistrations env batch done w)
  /\ (forall batch,
        lookup (lit "notifications") ps = None ->
        lookup (lit "registrations") ps = None ->
        lookup (lit "reg-updates") ps = None ->
        lookup (lit "registrations-expired") ps = Some batch ->
        dispatch env (VObj ps) w = sendExpirations env batch done w).
Proof.
  intros Hown. repeat split; intros batch.
  - intros Hn. rewrite dispatch_classify.
    unfold classify, hasOwnProperty, Get, bind, lift. now rewrite Hown, Hn.
  - intros Hn Hr. rewrite dispatch_classify.
    unfold classify, hasOwnProperty, Get, bind, lift.
    now rewrite Hown, Hn, Hr.
  - intros Hn Hr Hu. rewrite dispatch_classify.
    unfold classify, hasOwnProperty, Get, bind, lift.
    now rewrite Hown, Hn, Hr, Hu.
  - intros Hn Hr Hu Hx. rewrite dispatch_classify.
    unfold classify, hasOwnProperty, Get, bind, lift.
    now rewrite Hown, Hn, Hr, Hu, Hx.
Qed.

Lemma dispatch_takes_first_key_witness :
  dispatch sample_env
    (VObj [(lit "registrations", VArr [node1_registration]);
           (lit "registrations-expired", VArr [VStr (lit "node2")])])
    initial_world
  = sendRegistrations sample_env (VArr [node1_registration]) done
      initial_world
  /\ dispatch sample_env
       (VObj [(lit "reg-updates", VArr [node1_registration]);
              (lit "registrations-expired", VArr [VStr (lit "node2")])])
       initial_world
     = sendRegistrations sample_env (VArr [node1_registration]) done
         initial_world.
Proof.
  split.
  - exact (proj1 (proj2 (dispatch_takes_first_key sample_env
                           [(lit "registrations", VArr [node1_registration]);
                            (lit "registrations-expired",
                              VArr [VStr (lit "node2")])]
                           initial_world eq_refl))
             (VArr [node1_registration]) eq_refl eq_refl).
  - exact (proj1 (proj2 (proj2 (dispatch_takes_first_key sample_env
                           [(lit "reg-updates", VArr [node1_registration]);
                            (lit "registrations-expired",
                              VArr [VStr (lit "node2")])]
                           initial_world eq_refl)))
             (VArr [node1_registration]) eq_refl eq_refl eq_refl).
Defined.

(** X11: a body with a key named [hasOwnProperty] shadows the method the
    handler calls: whatever else the body holds, the handler throws a
    TypeError at its first test, sends nothing and does not call the
    callback. *)
Theorem handler_shadowed_hasOwnProperty_throws (env : Env) (text : jsstring)
    (ps : list (jsstring * value)) (shadow : value) (w : World) :
  JSON_parse env text = Some (VObj ps) ->
  lookup (lit "hasOwnProperty") ps = Some shadow ->
  handler env (put_event (VStr text)) w
  = (Throw (TypeError "hasOwnProperty is not a function"), w).
Proof.
  intros Hp Hs. rewrite (handler_put_event _ _ _ _ Hp).
  unfold dispatch, bind, lift, hasOwnProperty. now rewrite Hs.
Qed.

Lemma handler_shadowed_hasOwnProperty_throws_witness :
  handler
    (env_with (fun _ => Some (VObj [(lit "notifications", VArr [node1_notification]);
                                    (lit "hasOwnProperty", VNum 1)]))
       (handleRequest sample_env))
    (put_event (VStr (lit "{'notifications':[],'hasOwnProperty':1}")))
    initial_world
  = (Throw (TypeError "hasOwnProperty is not a function"), initial_world).
Proof.
  exact (handler_shadowed_hasOwnProperty_throws
           (env_with (fun _ => Some (VObj [(lit "notifications",
                                            VArr [node1_notification]);
                                           (lit "hasOwnProperty", VNum 1)]))
              (handleRequest sample_env))
           (lit "{'notifications':[],'hasOwnProperty':1}")
           [(lit "notifications", VArr [node1_notification]);
            (lit "hasOwnProperty", VNum 1)]
           (VNum 1) initial_world eq_refl eq_refl).
Defined.

(** X12: a PUT whose [body] is not JSON text makes [JSON.parse] throw
    inside the handler: the SyntaxError is not caught, nothing is sent and
    the callback is not called (no [400] is answered). *)
Theorem handler_unparsable_body_throws (env : Env) (body_value : value)
    (text : jsstring) (w : World) :
  ToString body_value = Ok text ->
  JSON_parse env text = None ->
  handler env (put_event body_value) w
  = (Throw (SyntaxError "Unexpected token in JSON"), w).
Proof.
  intros Ht Hp. unfold handler, bind, lift.
  rewrite put_event_method.
  change (is_string (VStr (lit "PUT")) (lit "PUT")) with true. cbv iota.
  rewrite put_event_has_body, put_event_body.
  unfold parse, bind, lift, throw. now rewrite Ht, Hp.
Qed.

Lemma handler_unparsable_body_throws_witness :
  handler sample_env (put_event (VStr (lit "notifications=1"))) initial_world
  = (Throw (SyntaxError "Unexpected token in JSON"), initial_world).
Proof.
  exact (handler_unparsable_body_throws sample_env
           (VStr (lit "notifications=1")) (lit "notifications=1")
           initial_world eq_refl eq_refl).
Defined.

(** X13: end to end.  For a PUT whose body parses to an object with a
    valid [notifications] array (strings [ep], [path] and [payload], the
    payload single-byte text), and an engine that answers without a body
    (with whatever status), the handler reads the clock once per item and
    once for the signature, sends one [POST /_bulk] whose body is the
    expected lines, and calls the callback once with status [200] and the
    body ["success"]. *)
Theorem handler_stores_notifications (env : Env) (text : jsstring)
    (ps : list (jsstring * value)) (items : list value)
    (ns : list Notification) (status : Z) (statusMessage : jsstring)
    (response_headers : value) (chunks : list jsstring) (w : World) :
  JSON_parse env text = Some (VObj ps) ->
  lookup (lit "hasOwnProperty") ps = None ->
  lookup (lit "notifications") ps = Some (VArr items) ->
  Forall2 is_notification items ns ->
  Forall (fun n => single_byte (payload n)) ns ->
  handleRequest env
    (signed_request env (lit "POST") (lit "/_bulk")
       (unlines (notification_bulk (clock env) (ticks w) ns))
       (clock env (length items + ticks w)))
  = Responded status statusMessage response_headers chunks ->
  concat chunks = [] ->
  handler env (put_event (VStr text)) w
  = (Ok tt,
     mkWorld (S (length items + ticks w))
       (requests w
        ++ [signed_request env (lit "POST") (lit "/_bulk")
              (unlines (notification_bulk (clock env) (ticks w) ns))
              (clock env (length items + ticks w))])
       (callbacks w
        ++ [mkResponse (lit "200") (Some (lit "'success'"))
              [(lit "Content-Type", lit "application/json")]])).
Proof.
  intros Hp Hown Hn Hvalid _ Hnet Hbody.
  rewrite (handler_put_event _ _ _ _ Hp), dispatch_classify.
  unfold classify, hasOwnProperty, Get, bind at 1, lift.
  rewrite Hown, Hn. cbn [run_branch].
  destruct (valid_notifications _ _ Hvalid) as (pss & -> & Hall & Hlines).
  rewrite length_map in *.
  unfold sendNotifications, bind at 1.
  unfold notifications_bulk, bind at 1, lift, iterate.
  rewrite (notifications_loop env pss Hall). cbn [app].
  rewrite Hlines. unfold bind.
  rewrite (sendRequest_resolves_empty_body env _ _ _ (tick (length pss) w)
             _ _ _ _ Hnet Hbody).
  reflexivity.
Qed.

Lemma handler_stores_notifications_witness :
  handler
    (env_with (fun _ => Some (VObj [(lit "notifications",
                                     VArr [node1_notification])]))
       (fun _ => Responded 500 (lit "Internal Server Error") (VObj []) []))
    (put_event (VStr (lit "{'notifications':[...]}"))) initial_world
  = (Ok tt,
     mkWorld 2
       [signed_request sample_env (lit "POST") (lit "/_bulk")
          (unlines
             [lit "{'index':{'_index':'notifications','_type':'_doc'}}";
              lit "{'time':1546300800000,'endpoint':'node1','path':'/3/0/1','value':'Hello'}"])
          1546300800001]
       [mkResponse (lit "200") (Some (lit "'success'"))
          [(lit "Content-Type", lit "application/json")]]).
Proof.
  refine (handler_stores_notifications
            (env_with (fun _ => Some (VObj [(lit "notifications",
                                             VArr [node1_notification])]))
               (fun _ => Responded 500 (lit "Internal Server Error")
                           (VObj []) []))
            (lit "{'notifications':[...]}")
            [(lit "notifications", VArr [node1_notification])]
            [node1_notification]
            [mkNotification (lit "node1") (lit "/3/0/1") (lit "SGVsbG8=")]
            500 (lit "Internal Server Error") (VObj []) []
            initial_world eq_refl eq_refl eq_refl _ _ eq_refl eq_refl).
  - constructor; [|constructor].
    eexists. split; [reflexivity|]. repeat split; reflexivity.
  - repeat constructor; cbn; lia.
Defined.

(** X14: a body that is a boolean, a number, a string or an array, or an
    object with none of the four keys, is acknowledged: the callback gets
    status [200] and the body ["success"], and nothing is sent. *)
Theorem handler_acknowledges_unknown_body (env : Env) (text : jsstring)
    (body_value : value) (w : World) :
  JSON_parse env text = Some body_value ->
  match body_value with
  | VBool _ | VNum _ | VDec _ _ _ | VStr _ | VArr _ => True
  | VObj ps =>
      lookup (lit "hasOwnProperty") ps = None
      /\ lookup (lit "notifications") ps = None
      /\ lookup (lit "registrations") ps = None
      /\ lookup (lit "reg-updates") ps = None
      /\ lookup (lit "registrations-expired") ps = None
  | VUndefined | VNull => False
  end ->
  handler env (put_event (VStr text)) w
  = (Ok tt,
     mkWorld (ticks w) (requests w)
       (callbacks w
        ++ [mkResponse (lit "200") (Some (lit "'success'"))
              [(lit "Content-Type", lit "application/json")]])).
Proof.
  intros Hp Hb. rewrite (handler_put_event _ _ _ _ Hp), dispatch_classify.
  destruct body_value as [| |b|n|neg ds pt|s|l|ps];
    try contradiction; try reflexivity.
  destruct Hb as (H0 & H1 & H2 & H3 & H4).
  unfold classify, hasOwnProperty, bind, lift.
  rewrite H0, H1, H2, H3, H4. reflexivity.
Qed.

Lemma handler_acknowledges_unknown_body_witness :
  handler
    (env_with (fun _ => Some (VArr [VObj [(lit "notifications", VArr [])]]))
       (handleRequest sample_env))
    (put_event (VStr (lit "[{'notifications':[]}]"))) initial_world
  = (Ok tt,
     mkWorld 0 []
       [mkResponse (lit "200") (Some (lit "'success'"))
          [(lit "Content-Type", lit "application/json")]]).
Proof.
  exact (handler_acknowledges_unknown_body
           (env_with (fun _ => Some (VArr [VObj [(lit "notifications", VArr [])]]))
              (handleRequest sample_env))
           (lit "[{'notifications':[]}]")
           (VArr [VObj [(lit "notifications", VArr [])]])
           initial_world eq_refl I).
Defined.

(* ================================================================== *)
(** * The signed request and the streamed response *)
(* ================================================================== *)

Lemma get_header_set_same (k v : jsstring) (hs : list (jsstring * jsstring)) :
  get_header k (set_header k v hs) = Some v.
Proof.
  induction hs as [|[k' v'] r IH]; cbn [set_header get_header].
  - now rewrite str_eqb_refl.
  - destruct (str_eqb k k') eqn:E; cbn [get_header].
    + now rewrite str_eqb_refl.
    + now rewrite E.
Qed.

Lemma get_header_set_other (k k' v : jsstring)
    (hs : list (jsstring * jsstring)) :
  str_eqb k k' = false ->
  get_header k (set_header k' v hs) = get_header k hs.
Proof.
  intros Hk. induction hs as [|[k0 v0] r IH]; cbn [set_header get_header].
  - now rewrite Hk.
  - destruct (str_eqb k' k0) eqn:E; cbn [get_header].
    + apply str_eqb_eq in E. subst k0. now rewrite Hk.
    + now rewrite IH.
Qed.

Lemma get_header_fold_other (k : jsstring)
    (added : list (jsstring * jsstring)) :
  Forall (fun kv => str_eqb k (fst kv) = false) added ->
  forall hs,
    get_header k (fold_left (fun hs kv => set_header (fst kv) (snd kv) hs)
                    added hs)
    = get_header k hs.
Proof.
  induction 1 as [|kv r Hkv _ IH]; intros hs; [reflexivity|].
  cbn [fold_left]. now rewrite IH, get_header_set_other.
Qed.

(** X15: the request that goes out carries the payload unchanged as its
    body, [Content-Type: application/json] (replacing a content type the
    fresh request had) and the engine's domain as [Host], provided the
    signer sets neither of these two headers. *)
Theorem signed_request_headers (env : Env)
    (httpMethod requestPath payload : jsstring) (date : Z) :
  (forall request d,
     Forall (fun kv => str_eqb (lit "Content-Type") (fst kv) = false
                       /\ str_eqb (lit "Host") (fst kv) = false)
       (addAuthorization env request d)) ->
  req_body (signed_request env httpMethod requestPath payload date) = payload
  /\ get_header (lit "Content-Type")
       (req_headers (signed_request env httpMethod requestPath payload date))
     = Some (lit "application/json")
  /\ get_header (lit "Host")
       (req_headers (signed_request env httpMethod requestPath payload date))
     = Some (ELASTICSEARCH_DOMAIN env).
Proof.
  intros Hsigner. split; [reflexivity|].
  unfold signed_request. cbn [req_headers req_method req_path req_body].
  split.
  - rewrite get_header_fold_other.
    + rewrite get_header_set_other by reflexivity.
      apply get_header_set_same.
    + eapply Forall_impl; [|apply Hsigner]. cbv beta. tauto.
  - rewrite get_header_fold_other.
    + apply get_header_set_same.
    + eapply Forall_impl; [|apply Hsigner]. cbv beta. tauto.
Qed.

Lemma signed_request_headers_witness :
  req_headers (signed_request signing_env (lit "POST") (lit "/_bulk")
                 (lit "{}") 1546300800000)
  = [(lit "User-Agent", lit "aws-sdk-nodejs");
     (lit "Content-Type", lit "application/json");
     (lit "Host", lit "search-demo.eu-west-1.es.amazonaws.com");
     (lit "X-Amz-Date", lit "1546300800000");
     (lit "Authorization", lit "AWS4-HMAC-SHA256 Credential=...")]
  /\ get_header (lit "Content-Type")
       (req_headers (signed_request signing_env (lit "POST") (lit "/_bulk")
                       (lit "{}") 1546300800000))
     = Some (lit "application/json").
Proof.
  split; [vm_compute; reflexivity|].
  refine (proj1 (proj2 (signed_request_headers signing_env (lit "POST")
                          (lit "/_bulk") (lit "{}") 1546300800000 _))).
  intros request d. repeat constructor.
Defined.

(** X16: the response body is the concatenation of its chunks: two
    responses with the same status line and headers whose chunks
    concatenate to the same text settle the promise in the same way,
    however the text was cut into chunks. *)
Theorem response_chunking_is_irrelevant (env1 env2 : Env)
    (httpMethod requestPath payload : jsstring) (w : World)
    (status : Z) (statusMessage : jsstring) (response_headers : value)
    (chunks1 chunks2 : list jsstring) :
  (forall text, JSON_parse env1 text = JSON_parse env2 text) ->
  handleRequest env1
    (signed_request env1 httpMethod requestPath payload (clock env1 (ticks w)))
  = Responded status statusMessage response_headers chunks1 ->
  handleRequest env2
    (signed_request env2 httpMethod requestPath payload (clock env2 (ticks w)))
  = Responded status statusMessage response_headers chunks2 ->
  concat chunks1 = concat chunks2 ->
  fst (sendRequest env1 httpMethod requestPath payload w)
  = fst (sendRequest env2 httpMethod requestPath payload w).
Proof.
  intros Hparse H1 H2 Hcat.
  unfold sendRequest, bind, Date_now, transmit.
  cbn [ticks requests callbacks]. rewrite H1, H2.
  rewrite !fold_left_app_concat, Hcat. cbn [app].
  destruct (concat chunks2) as [|c body]; [reflexivity|].
  rewrite Hparse. destruct (JSON_parse env2 (c :: body)); reflexivity.
Qed.

Lemma response_chunking_is_irrelevant_witness :
  fst (sendRequest
         (env_with (JSON_parse sample_env)
            (fun _ => Responded 200 (lit "OK") (VObj []) [lit "nu"; lit "ll"]))
         (lit "POST") (lit "/_bulk") [] initial_world)
  = fst (sendRequest
           (env_with (JSON_parse sample_env)
              (fun _ => Responded 200 (lit "OK") (VObj []) [lit "null"]))
           (lit "POST") (lit "/_bulk") [] initial_world).
Proof.
  exact (response_chunking_is_irrelevant
           (env_with (JSON_parse sample_env)
              (fun _ => Responded 200 (lit "OK") (VObj []) [lit "nu"; lit "ll"]))
           (env_with (JSON_parse sample_env)
              (fun _ => Responded 200 (lit "OK") (VObj []) [lit "null"]))
           (lit "POST") (lit "/_bulk") [] initial_world
           200 (lit "OK") (VObj []) [lit "nu"; lit "ll"] [lit "null"]
           (fun _ => eq_refl) eq_refl eq_refl eq_refl).
Defined.

(* ================================================================== *)
(** * Batches in parts *)
(* ================================================================== *)

(** A pass of a loop only appends to the payload built so far. *)
Lemma notification_step_appends (env : Env) (bulk : jsstring) (item : value)
    (w : World) :
  notification_step env bulk item w
  = bind (notification_step env [] item) (fun s => ret (bulk ++ s)) w.
Proof.
  unfold notification_step, bind, lift, ret, Date_now.
  destruct (Get item (lit "payload")) as [p|e]; [|reflexivity].
  destruct (Buffer_from_base64 env p) as [buffer|e]; [|reflexivity].
  destruct (Get item (lit "ep")) as [ep'|e]; [|reflexivity].
  destruct (Get item (lit "path")) as [path'|e]; [|reflexivity].
  rewrite document_line_obj. cbn [app]. now rewrite <- !app_assoc.
Qed.

Lemma registration_step_appends (env : Env) (bulk : jsstring) (item : value)
    (w : World) :
  registration_step env bulk item w
  = bind (registration_step env [] item) (fun s => ret (bulk ++ s)) w.
Proof.
  unfold registration_step, bind, lift, ret, Date_now.
  destruct (Get item (lit "ep")) as [ep'|e]; [|reflexivity].
  destruct (Get item (lit "original-ep")) as [o|e]; [|reflexivity].
  destruct (Get item (lit "ept")) as [t|e]; [|reflexivity].
  destruct (Get item (lit "resources")) as [r|e]; [|reflexivity].
  rewrite !document_line_obj. cbn [app]. now rewrite <- !app_assoc.
Qed.

Lemma expiration_step_appends (env : Env) (bulk : jsstring) (item : value)
    (w : World) :
  expiration_step env bulk item w
  = bind (expiration_step env [] item) (fun s => ret (bulk ++ s)) w.
Proof.
  unfold expiration_step, bind, lift, ret, Date_now.
  rewrite document_line_obj. cbn [app]. now rewrite <- !app_assoc.
Qed.

Lemma for_of_appends (step : jsstring -> value -> M jsstring) :
  (forall bulk item w,
     step bulk item w = bind (step [] item) (fun s => ret (bulk ++ s)) w) ->
  forall items bulk w,
    for_of items step bulk w
    = bind (for_of items step []) (fun s => ret (bulk ++ s)) w.
Proof.
  intros Hstep. induction items as [|item r IH]; intros bulk w.
  - cbn. unfold bind, ret. now rewrite app_nil_r.
  - cbn [for_of]. unfold bind at 1 2 3. rewrite (Hstep bulk item w).
    unfold bind at 1, ret at 1.
    destruct (step [] item w) as [[s|e] w1]; [|reflexivity].
    rewrite (IH (bulk ++ s) w1), (IH s w1). unfold bind, ret.
    destruct (for_of r step [] w1) as [[s'|e] w2]; [|reflexivity].
    now rewrite app_assoc.
Qed.

Lemma for_of_parts (step : jsstring -> value -> M jsstring)
    (front back : list value) (w : World) :
  (forall bulk item w,
     step bulk item w = bind (step [] item) (fun s => ret (bulk ++ s)) w) ->
  for_of (front ++ back) step [] w
  = bind (for_of front step [])
      (fun first => bind (for_of back step [])
                      (fun second => ret (first ++ second))) w.
Proof.
  intros Hstep. rewrite for_of_app. unfold bind at 1 2.
  destruct (for_of front step [] w) as [[first|e] w1]; [|reflexivity].
  apply (for_of_appends step Hstep).
Qed.

(** X17: a batch in two parts.  The payload of the array [front ++ back]
    is the payload of [front] followed by the payload that [back] gives
    from the world [front] left (the clock goes on); and if either part
    throws, the whole batch throws the same exception. *)
Theorem bulk_of_concatenated_batch (env : Env) (front back : list value)
    (w : World) :
  notifications_bulk env (VArr (front ++ back)) w
  = bind (notifications_bulk env (VArr front))
      (fun first => bind (notifications_bulk env (VArr back))
                      (fun second => ret (first ++ second))) w
  /\ registrations_bulk env (VArr (front ++ back)) w
     = bind (registrations_bulk env (VArr front))
         (fun first => bind (registrations_bulk env (VArr back))
                         (fun second => ret (first ++ second))) w
  /\ expirations_bulk env (VArr (front ++ back)) w
     = bind (expirations_bulk env (VArr front))
         (fun first => bind (expirations_bulk env (VArr back))
                         (fun second => ret (first ++ second))) w.
Proof.
  repeat split.
  - exact (for_of_parts (notification_step env) front back w
             (notification_step_appends env)).
  - exact (for_of_parts (registration_step env) front back w
             (registration_step_appends env)).
  - exact (for_of_parts (expiration_step env) front back w
             (expiration_step_appends env)).
Qed.
